(** * MagicPod-to-Xray result import: model and verification

    Shallow embedding of [xray_import_results.py]: the status mapper
    [map_status], the converter [convert_magicpod_to_xray] with the
    test-key extraction it performs on each test name, the uploader
    [XrayResultImporter] and the script's entry point.

    Python [str] values are modelled by [string], and the string operations
    the script uses ([lower], [in], [split], [strip], [rstrip]) are embedded
    in module [PyStr].  [lower] converts the letters A-Z and leaves every
    other character as it is.  In Python the lower-casing of a string that
    has a character outside ASCII still has a character that occurs in
    neither ["succeeded"] nor ["failed"], so the two tests of [map_status]
    answer here as they do there.

    Effects are explicit: a computation reads a [World] (the file system,
    the network, the clock), emits a trace of [Event]s, and ends with a
    value or with the exception that was raised.

    Module [Jira] embeds the sibling script [xray_prepare.py] in the same
    way, with a world of its own: the two scripts share no state. *)

From Stdlib Require Import String Ascii List Bool NArith ZArith Lia.
Import ListNotations.
Local Open Scope string_scope.

(** ** Python string operations *)

Module PyStr.

(** [c in chars] for a single character [c]. *)
Fixpoint mem (c : ascii) (chars : string) : bool :=
  match chars with
  | EmptyString => false
  | String a t => Ascii.eqb c a || mem c t
  end.

(** [s.startswith(p)]. *)
Fixpoint startswith (p s : string) : bool :=
  match p, s with
  | EmptyString, _ => true
  | String _ _, EmptyString => false
  | String a p', String b s' => Ascii.eqb a b && startswith p' s'
  end.

(** [sub in s] on two strings: [sub] occurs in [s] as a contiguous
    substring.  The empty string occurs in every string. *)
Fixpoint contains (sub s : string) : bool :=
  startswith sub s ||
  match s with
  | EmptyString => false
  | String _ t => contains sub t
  end.

Definition is_upper (c : ascii) : bool :=
  ((65 <=? N_of_ascii c) && (N_of_ascii c <=? 90))%N.

Definition lower_char (c : ascii) : ascii :=
  if is_upper c then ascii_of_N (N_of_ascii c + 32) else c.

(** [s.lower()]. *)
Fixpoint lower (s : string) : string :=
  match s with
  | EmptyString => EmptyString
  | String a t => String (lower_char a) (lower t)
  end.

(** [s.split(sep)] for a one-character separator: the list is never
    empty, and [n] separators give [n + 1] pieces. *)
Fixpoint split (sep : ascii) (s : string) : list string :=
  match s with
  | EmptyString => [EmptyString]
  | String a t =>
      if Ascii.eqb a sep then EmptyString :: split sep t
      else match split sep t with
           | piece :: rest => String a piece :: rest
           | [] => [String a EmptyString]
           end
  end.

(** [l[-1]] on a list of strings that is known not to be empty. *)
Definition last_piece (l : list string) : string := last l EmptyString.

(** [s.lstrip(chars)]. *)
Fixpoint lstrip (chars : string) (s : string) : string :=
  match s with
  | EmptyString => EmptyString
  | String a t => if mem a chars then lstrip chars t else s
  end.

(** [s.rstrip(chars)]. *)
Fixpoint rstrip (chars : string) (s : string) : string :=
  match s with
  | EmptyString => EmptyString
  | String a t =>
      match rstrip chars t with
      | EmptyString => if mem a chars then EmptyString
                       else String a EmptyString
      | t' => String a t'
      end
  end.

(** [s.strip(chars)]: every leading and every trailing character that
    belongs to [chars] is removed. *)
Definition strip (chars : string) (s : string) : string :=
  lstrip chars (rstrip chars s).

(** Truth value of an optional string: [None] and [""] are false. *)
Definition truthy (s : option string) : bool :=
  match s with
  | None => false
  | Some EmptyString => false
  | Some (String _ _) => true
  end.

(** [s or default]. *)
Definition or_else (s : option string) (default : string) : string :=
  match s with
  | Some (String a t) => String a t
  | _ => default
  end.

End PyStr.

(** ** The status mapper *)

(** [map_status(mp_status)].  The two tests [mp_status in ("succeeded")] and
    [mp_status in ("failed")] have a parenthesised string, not a tuple, on
    their right-hand side: they are substring tests. *)
Definition map_status (mp_status : option string) : string :=
  let mp_status := PyStr.lower (PyStr.or_else mp_status "") in
  if PyStr.contains mp_status "succeeded" then "PASSED"
  else if PyStr.contains mp_status "failed" then "FAILED"
  else if String.eqb mp_status "skipped" then "TODO"
  else "TODO".

(** ** The source report

    The parsed MagicPod result document, at the schema the converter reads:
    objects with string and list fields.  Every key may be absent ([None]);
    the converter reads all of them but ["url"] through [dict.get] with a
    default.  Documents that hold a value of another JSON type in one of
    these fields are outside the model. *)

Record TestCase := { tc_name : option string }.

Record Result := {
  r_test_case : option TestCase;
  r_status : option string
}.

Record Detail := { d_results : option (list Result) }.

Record TestCases := { tcs_details : option (list Detail) }.

Record Report := {
  mp_url : option string;
  mp_test_cases : option TestCases
}.

(** [d.get(key, default)] on an optional key. *)
Definition get {A : Type} (field : option A) (default : A) : A :=
  match field with
  | Some v => v
  | None => default
  end.

(** ** The execution document *)

Record TestInfo := { ti_summary : string; ti_type : string }.

(** A test entry is a dictionary that always has ["status"] and ["comment"]
    and to which ["testKey"] or ["testInfo"] is added afterwards: the two
    optional keys are [None] while absent. *)
Record TestEntry := {
  status : string;
  comment : string;
  testKey : option string;
  testInfo : option TestInfo
}.

Record Info := { summary : string; description : string }.

Record Execution := { info : Info; tests : list TestEntry }.

Definition set_testKey (e : TestEntry) (k : string) : TestEntry :=
  {| status := status e; comment := comment e;
     testKey := Some k; testInfo := testInfo e |}.

Definition set_testInfo (e : TestEntry) (ti : TestInfo) : TestEntry :=
  {| status := status e; comment := comment e;
     testKey := testKey e; testInfo := Some ti |}.

(** ** Effects: exceptions, the outside world and the trace of a run *)

Inductive Exn : Type :=
| FileNotFoundError (path : string)
| PermissionError (path : string)
| JSONDecodeError
| KeyError (key : string)
| UnboundLocalError (var : string)
| ConnectionError
| HTTPError (status_code : Z)
| SystemExit (code : Z).

(** What [open] followed by [json.load] finds at a path. *)
Inductive FileState : Type :=
| Missing
| Unreadable
| Malformed
| Holds (mp : Report).

Inductive Body : Type :=
| Credentials (client_id client_secret : string)
| ExecutionPayload (execution : Execution).

Record Request := {
  req_url : string;
  req_headers : list (string * string);
  req_json : Body
}.

(** An HTTP response; [resp_json] is the decoded body, [None] when the text
    is not JSON. *)
Record Response := {
  status_code : Z;
  text : string;
  resp_json : option string
}.

(** The environment of one run.  [http_post] answers [None] when the
    request cannot be delivered.  [clock] is the wall-clock time. *)
Record World := {
  fs : string -> FileState;
  http_post : Request -> option Response;
  clock : Z
}.

Inductive Output : Type :=
| PayloadBanner
| Dump (execution : Execution)
| UploadFailed (body : string)
| UploadSuccessful
| DumpResponse (body : string).

Inductive Event : Type :=
| EvPost (request : Request)
| EvOpen (path : string)
| EvPrint (out : Output).

(** A computation reads the world, emits events in order, and ends with a
    value or with an uncaught exception. *)
Definition M (A : Type) : Type := World -> list Event * (Exn + A).

Definition ret {A : Type} (a : A) : M A := fun _ => ([], inr a).

Definition raise {A : Type} (e : Exn) : M A := fun _ => ([], inl e).

Definition bind {A B : Type} (m : M A) (k : A -> M B) : M B :=
  fun w =>
    match m w with
    | (tr, inl e) => (tr, inl e)
    | (tr, inr a) => let (tr', r) := k a w in ((tr ++ tr')%list, r)
    end.

Notation "x <- m ;; k" := (bind m (fun x => k))
  (at level 61, m at next level, right associativity).
Notation "m ;; k" := (bind m (fun _ => k))
  (at level 61, right associativity).

Definition trace {A : Type} (r : list Event * (Exn + A)) : list Event := fst r.

Definition outcome {A : Type} (r : list Event * (Exn + A)) : Exn + A := snd r.

Definition print (out : Output) : M unit := fun _ => ([EvPrint out], inr tt).

(** [requests.post(url, headers=..., json=...)]. *)
Definition requests_post (url : string) (headers : list (string * string))
    (body : Body) : M Response :=
  fun w =>
    let request := {| req_url := url; req_headers := headers;
                      req_json := body |} in
    ([EvPost request],
     match http_post w request with
     | Some resp => inr resp
     | None => inl ConnectionError
     end).

(** [resp.ok]: the status is not a client or server error. *)
Definition ok (resp : Response) : bool :=
  negb ((400 <=? status_code resp) && (status_code resp <? 600))%Z.

(** [resp.raise_for_status()]. *)
Definition raise_for_status (resp : Response) : M unit :=
  if ok resp then ret tt else raise (HTTPError (status_code resp)).

(** [with open(mp_file, "r", encoding="utf-8") as f: mp = json.load(f)]. *)
Definition load_json (mp_file : string) : M Report :=
  fun w =>
    ([EvOpen mp_file],
     match fs w mp_file with
     | Missing => inl (FileNotFoundError mp_file)
     | Unreadable => inl (PermissionError mp_file)
     | Malformed => inl JSONDecodeError
     | Holds mp => inr mp
     end).

(** [mp['url']]. *)
Definition subscript_url (mp : Report) : M string :=
  match mp_url mp with
  | Some u => ret u
  | None => raise (KeyError "url")
  end.

(** Reading a local variable that may not have been assigned. *)
Definition local (var : string) (value : option string) : M string :=
  match value with
  | Some v => ret v
  | None => raise (UnboundLocalError var)
  end.

(** ** The converter *)

(** [tc.get("name", "Unnamed Test")] with [tc = result.get("test_case", {})]. *)
Definition test_name (result : Result) : string :=
  let tc := get (r_test_case result) {| tc_name := None |} in
  get (tc_name tc) "Unnamed Test".

(** [test_name.split("[")[-1].strip("]")]. *)
Definition candidate (test_name : string) : string :=
  PyStr.strip "]" (PyStr.last_piece (PyStr.split "[" test_name)).

(** The test key extracted from a test name, [None] when there is none. *)
Definition test_key (test_name : string) : option string :=
  if PyStr.contains "[" test_name && PyStr.contains "]" test_name then
    if PyStr.contains "-" (candidate test_name)
    then Some (candidate test_name)
    else None
  else None.

(** The body of the inner loop: the entry built for one result record. *)
Definition test_entry (result : Result) : TestEntry :=
  let test_name := test_name result in
  let status := map_status (Some (get (r_status result) "")) in
  let test_key := test_key test_name in
  let test_entry :=
    {| status := status;
       comment := "Imported from MagicPod. Original test: " ++ test_name;
       testKey := None;
       testInfo := None |} in
  match test_key with
  | Some (String a k) => set_testKey test_entry (String a k)
  | _ => set_testInfo test_entry
           {| ti_summary := test_name; ti_type := "Manual" |}
  end.

(** The inner loop: one [append] per result of a detail group. *)
Definition append_results (tests : list TestEntry) (detail : Detail)
    : list TestEntry :=
  fold_left (fun tests result => (tests ++ [test_entry result])%list)
            (get (d_results detail) []) tests.

(** The outer loop over [mp.get("test_cases", {}).get("details", [])]. *)
Definition convert_details (mp : Report) (tests : list TestEntry)
    : list TestEntry :=
  let details :=
    get (tcs_details (get (mp_test_cases mp) {| tcs_details := None |})) [] in
  fold_left append_results details tests.

Definition newline : string := String (ascii_of_nat 10) EmptyString.

(** [convert_magicpod_to_xray(mp_file, summary)].  [description] is
    assigned only in the branch that computes the default summary. *)
Definition convert_magicpod_to_xray (mp_file : string)
    (summary : option string) : M Execution :=
  mp <- load_json mp_file ;;
  locals <-
    (if negb (PyStr.truthy summary) then
       u <- subscript_url mp ;;
       u' <- subscript_url mp ;;
       ret ("MagicPod Batch Run: " ++ u,
            Some ("Imported automatically from MagicPod. " ++ newline
                  ++ " MagicPod URL: " ++ u'))
     else ret (get summary "", None)) ;;
  let summary := fst locals in
  description <- local "description" (snd locals) ;;
  let execution :=
    {| info := {| summary := summary; description := description |};
       tests := [] |} in
  ret {| info := info execution;
         tests := convert_details mp (tests execution) |}.

(** ** The uploader *)

Record XrayResultImporter := {
  base_url : string;
  client_id : string;
  client_secret : string;
  token : string
}.

Definition quote : string := String (ascii_of_nat 34) EmptyString.

(** [XrayResultImporter.authenticate]. *)
Definition authenticate (base_url client_id client_secret : string)
    : M string :=
  let url := base_url ++ "/api/v2/authenticate" in
  let payload := Credentials client_id client_secret in
  resp <- requests_post url [] payload ;;
  raise_for_status resp ;;
  ret (PyStr.strip quote (text resp)).

(** [XrayResultImporter.__init__]: the constructor authenticates. *)
Definition XrayResultImporter_init (base_url client_id client_secret : string)
    : M XrayResultImporter :=
  let base_url := PyStr.rstrip "/" base_url in
  token <- authenticate base_url client_id client_secret ;;
  ret {| base_url := base_url; client_id := client_id;
         client_secret := client_secret; token := token |}.

(** [XrayResultImporter.headers]. *)
Definition headers (self : XrayResultImporter) : list (string * string) :=
  [("Authorization", "Bearer " ++ token self);
   ("Content-Type", "application/json")].

(** [resp.json()]. *)
Definition json (resp : Response) : M string :=
  match resp_json resp with
  | Some body => ret body
  | None => raise JSONDecodeError
  end.

(** [XrayResultImporter.import_results]. *)
Definition import_results (self : XrayResultImporter)
    (execution_payload : Execution) : M string :=
  let url := base_url self ++ "/api/v2/import/execution" in
  resp <- requests_post url (headers self)
            (ExecutionPayload execution_payload) ;;
  (if negb (ok resp) then
     print (UploadFailed (text resp)) ;;
     raise_for_status resp
   else ret tt) ;;
  json resp.

(** ** The entry point *)

(** The parsed command line; the credentials default to environment
    variables that may be unset. *)
Record Args := {
  arg_base_url : string;
  arg_client_id : option string;
  arg_client_secret : option string;
  arg_magicpod_json : string;
  arg_summary : option string
}.

(** [parser.error(...)] when a credential is missing. *)
Definition check_credentials (args : Args) : M unit :=
  if negb (PyStr.truthy (arg_client_id args))
     || negb (PyStr.truthy (arg_client_secret args))
  then raise (SystemExit 2)
  else ret tt.

(** The body of [if __name__ == "__main__"], after argument parsing. *)
Definition main (args : Args) : M unit :=
  check_credentials args ;;
  importer <- XrayResultImporter_init (arg_base_url args)
                (get (arg_client_id args) "")
                (get (arg_client_secret args) "") ;;
  payload <- convert_magicpod_to_xray (arg_magicpod_json args)
               (arg_summary args) ;;
  print PayloadBanner ;;
  print (Dump payload) ;;
  response <- import_results importer payload ;;
  print UploadSuccessful ;;
  print (DumpResponse response) ;;
  check_credentials args.

(** ** Properties of the trace *)

Definition is_network_call (ev : Event) : bool :=
  match ev with
  | EvPost _ => true
  | _ => false
  end.

Definition is_import_request (ev : Event) : bool :=
  match ev with
  | EvPost r =>
      match req_json r with
      | ExecutionPayload _ => true
      | Credentials _ _ => false
      end
  | _ => false
  end.

Definition is_authentication_request (ev : Event) : bool :=
  match ev with
  | EvPost r =>
      match req_json r with
      | Credentials _ _ => true
      | ExecutionPayload _ => false
      end
  | _ => false
  end.

(** The file at [path] was read and parsed. *)
Definition parsed (w : World) (path : string) : bool :=
  match fs w path with
  | Holds _ => true
  | _ => false
  end.

(** ** Reference definitions for the statements below *)

(** The part of [s] after its last [c]; all of [s] when [c] does not occur. *)
Fixpoint after_last (c : ascii) (s : string) : string :=
  match s with
  | EmptyString => EmptyString
  | String a t =>
      if PyStr.mem c t then after_last c t
      else if Ascii.eqb a c then t
      else s
  end.

(** [s] without its final character when that character is [c]. *)
Fixpoint strip_one_trailing (c : ascii) (s : string) : string :=
  match s with
  | EmptyString => EmptyString
  | String a EmptyString => if Ascii.eqb a c then EmptyString else s
  | String a t => String a (strip_one_trailing c t)
  end.

(** The resolver as the specification words it: the candidate is the text
    after the last ["["] with a trailing ["]"] removed. *)
Definition resolver_spec (name : string) : option string :=
  if PyStr.contains "[" name && PyStr.contains "]" name then
    let cand := strip_one_trailing "]" (after_last "[" name) in
    if PyStr.contains "-" cand then Some cand else None
  else None.

(** Every character of [s] belongs to [chars]. *)
Fixpoint all_in (chars s : string) : bool :=
  match s with
  | EmptyString => true
  | String a t => PyStr.mem a chars && all_in chars t
  end.

(** The last character of [s] belongs to [chars]. *)
Fixpoint ends_in (chars s : string) : bool :=
  match s with
  | EmptyString => false
  | String a EmptyString => PyStr.mem a chars
  | String _ t => ends_in chars t
  end.

(** The first character of [s] belongs to [chars]. *)
Definition starts_in (chars s : string) : bool :=
  match s with
  | EmptyString => false
  | String a _ => PyStr.mem a chars
  end.

(** The destination status of each known label. *)
Definition known_labels : list (string * string) :=
  [("succeeded", "PASSED"); ("failed", "FAILED"); ("skipped", "TODO")].

(** The detail groups of a report, in document order. *)
Definition details_of (mp : Report) : list Detail :=
  match mp_test_cases mp with
  | Some tcs => match tcs_details tcs with
                | Some ds => ds
                | None => []
                end
  | None => []
  end.

(** The result records of a report, in document order: the groups in
    order, and the results of each group in order. *)
Definition result_records (mp : Report) : list Result :=
  flat_map (fun d => match d_results d with Some rs => rs | None => [] end)
           (details_of mp).

(** The default summary and description of a report with url [u]. *)
Definition default_info (u : string) : Info :=
  {| summary := "MagicPod Batch Run: " ++ u;
     description := "Imported automatically from MagicPod. " ++ newline
                    ++ " MagicPod URL: " ++ u |}.

(** An entry has exactly one of ["testKey"] and ["testInfo"]. *)
Definition exactly_one_identity (e : TestEntry) : Prop :=
  (testKey e <> None /\ testInfo e = None) \/
  (testKey e = None /\ testInfo e <> None).

(** ** Sample inputs *)

Definition sample_report : Report :=
  {| mp_url := Some "https://app.magicpod.com/run/7";
     mp_test_cases := Some {| tcs_details := Some [
       {| d_results := Some [
            {| r_test_case := Some {| tc_name := Some "A [X-1]" |};
               r_status := Some "succeeded" |} ] |};
       {| d_results := Some [
            {| r_test_case := Some {| tc_name := Some "B" |};
               r_status := Some "failed" |} ] |} ] |} |}.

(** The document expected for [sample_report]. *)
Definition sample_execution : Execution :=
  {| info := default_info "https://app.magicpod.com/run/7";
     tests := [
       {| status := "PASSED";
          comment := "Imported from MagicPod. Original test: A [X-1]";
          testKey := Some "X-1";
          testInfo := None |};
       {| status := "FAILED";
          comment := "Imported from MagicPod. Original test: B";
          testKey := None;
          testInfo := Some {| ti_summary := "B"; ti_type := "Manual" |} |} ] |}.

Definition accept_all (r : Request) : option Response :=
  Some {| status_code := 200; text := "tok"; resp_json := Some "{}" |}.

Definition sample_world (file : FileState) (now : Z) : World :=
  {| fs := fun path => if String.eqb path "magicpod_result" then file
                       else Missing;
     http_post := accept_all;
     clock := now |}.

Definition sample_args (summary : option string) : Args :=
  {| arg_base_url := "https://xray.cloud.getxray.app";
     arg_client_id := Some "id";
     arg_client_secret := Some "secret";
     arg_magicpod_json := "magicpod_result";
     arg_summary := summary |}.

(** ** The requests of a run *)

(** The request [XrayResultImporter.authenticate] sends for a command
    line. *)
Definition auth_request (args : Args) : Request :=
  {| req_url := PyStr.rstrip "/" (arg_base_url args) ++ "/api/v2/authenticate";
     req_headers := [];
     req_json := Credentials (get (arg_client_id args) "")
                             (get (arg_client_secret args) "") |}.

(** The token kept from an authentication response. *)
Definition token_of (resp : Response) : string :=
  PyStr.strip quote (text resp).

(** The request [XrayResultImporter.import_results] sends for a command
    line, a token and a payload. *)
Definition import_request (args : Args) (token : string)
    (payload : Execution) : Request :=
  {| req_url := PyStr.rstrip "/" (arg_base_url args)
                ++ "/api/v2/import/execution";
     req_headers := [("Authorization", "Bearer " ++ token);
                     ("Content-Type", "application/json")];
     req_json := ExecutionPayload payload |}.

(** The document the converter builds from a report with url [u]. *)
Definition conversion (mp : Report) (u : string) : Execution :=
  {| info := default_info u; tests := map test_entry (result_records mp) |}.

(** ** Further sample worlds *)

(** A service that rejects every request with status [code]. *)
Definition reject_all (code : Z) (r : Request) : option Response :=
  Some {| status_code := code; text := "denied"; resp_json := None |}.

(** A service that accepts the credentials, answering with a quoted token,
    and rejects the import with status 400. *)
Definition reject_import (r : Request) : option Response :=
  match req_json r with
  | Credentials _ _ =>
      Some {| status_code := 200; text := quote ++ "tok" ++ quote;
              resp_json := Some "tok" |}
  | ExecutionPayload _ =>
      Some {| status_code := 400; text := "bad payload"; resp_json := None |}
  end.

Definition sample_world_with (file : FileState)
    (net : Request -> option Response) : World :=
  {| fs := fun _ => file; http_post := net; clock := 0 |}.

(** * The test-plan script

    Shallow embedding of [xray_prepare.py]: the wrapper [JiraAPIWrapper]
    with its Basic authorization header and [create_test_plan], and the
    script's entry point.  A [string] stands for the UTF-8 bytes of a Python
    [str], so [encode("utf-8")] and [decode("utf-8")] are the identity. *)

Module Jira.

(** ** [base64.b64encode] *)

Definition b64_alphabet : string :=
  "ABCDEFGHIJKLMNOPQRSTUVWXYZabcdefghijklmnopqrstuvwxyz0123456789+/".

Definition pad : ascii := "="%char.

(** The character of a six-bit value. *)
Definition b64_char (n : N) : ascii :=
  match String.get (N.to_nat n) b64_alphabet with
  | Some c => c
  | None => pad
  end.

(** Three bytes give four characters; a final group of one or two bytes
    is completed with zero bits and padded with "=". *)
Fixpoint b64encode (s : string) : string :=
  match s with
  | EmptyString => EmptyString
  | String a EmptyString =>
      let x := N_of_ascii a in
      String (b64_char (x / 4))
        (String (b64_char (x mod 4 * 16))
           (String pad (String pad EmptyString)))
  | String a (String b EmptyString) =>
      let x := N_of_ascii a in
      let y := N_of_ascii b in
      String (b64_char (x / 4))
        (String (b64_char (x mod 4 * 16 + y / 16))
           (String (b64_char (y mod 16 * 4))
              (String pad EmptyString)))
  | String a (String b (String c t)) =>
      let x := N_of_ascii a in
      let y := N_of_ascii b in
      let z := N_of_ascii c in
      String (b64_char (x / 4))
        (String (b64_char (x mod 4 * 16 + y / 16))
           (String (b64_char (y mod 16 * 4 + z / 64))
              (String (b64_char (z mod 64)) (b64encode t))))
  end%N.

(** ** [datetime.now().strftime("%Y-%m-%d-%H-%M")] *)

(** The fields of a [datetime] that the format reads: [year] is between 1
    and 9999, and the other fields have at most two digits. *)
Record datetime := {
  year : N;
  month : N;
  day : N;
  hour : N;
  minute : N
}.

Definition digit (n : N) : ascii := ascii_of_N (48 + n mod 10).

(** A field written with two digits, zero-padded. *)
Definition two_digits (n : N) : string :=
  String (digit (n / 10)) (String (digit n) EmptyString).

(** The year written with four digits, zero-padded. *)
Definition four_digits (n : N) : string :=
  String (digit (n / 1000)) (String (digit (n / 100)) (two_digits n)).

Definition strftime (dt : datetime) : string :=
  four_digits (year dt) ++ "-" ++ two_digits (month dt) ++ "-"
  ++ two_digits (day dt) ++ "-" ++ two_digits (hour dt) ++ "-"
  ++ two_digits (minute dt).

(** ** Effects *)

(** The ["fields"] object of the issue that is created. *)
Record Fields := {
  project_key : string;
  fields_summary : string;
  fields_description : string;
  issuetype_name : string
}.

Record Request := {
  req_url : string;
  req_headers : list (string * string);
  req_json : Fields
}.

(** The environment of one run: the issue tracker and the local time. *)
Record World := {
  http_post : Request -> option Response;
  now : datetime
}.

Inductive Output : Type :=
| CreateFailed
| ResponseText (body : string)
| CreatedSuccessfully
| DumpResult (body : string).

Inductive Event : Type :=
| EvPost (request : Request)
| EvPrint (out : Output).

Definition M (A : Type) : Type := World -> list Event * (Exn + A).

Definition ret {A : Type} (a : A) : M A := fun _ => ([], inr a).

Definition raise {A : Type} (e : Exn) : M A := fun _ => ([], inl e).

Definition bind {A B : Type} (m : M A) (k : A -> M B) : M B :=
  fun w =>
    match m w with
    | (tr, inl e) => (tr, inl e)
    | (tr, inr a) => let (tr', r) := k a w in ((tr ++ tr')%list, r)
    end.

(** [try: m except ...: h]: the handler runs on an exception of [m], after
    the events of [m]. *)
Definition try_except {A : Type} (m : M A) (h : Exn -> M A) : M A :=
  fun w =>
    match m w with
    | (tr, inl e) => let (tr', r) := h e w in ((tr ++ tr')%list, r)
    | (tr, inr a) => (tr, inr a)
    end.

Declare Scope jira_scope.
#[local] Notation "x <- m ;; k" := (bind m (fun x => k))
  (at level 61, m at next level, right associativity) : jira_scope.
#[local] Notation "m ;; k" := (bind m (fun _ => k))
  (at level 61, right associativity) : jira_scope.
Local Open Scope jira_scope.

Definition trace {A : Type} (r : list Event * (Exn + A)) : list Event := fst r.

Definition outcome {A : Type} (r : list Event * (Exn + A)) : Exn + A := snd r.

Definition print (out : Output) : M unit := fun _ => ([EvPrint out], inr tt).

(** [datetime.now()]. *)
Definition datetime_now : M datetime := fun w => ([], inr (now w)).

(** [requests.post(url, headers=..., json=...)]. *)
Definition requests_post (url : string) (headers : list (string * string))
    (payload : Fields) : M Response :=
  fun w =>
    let request := {| req_url := url; req_headers := headers;
                      req_json := payload |} in
    ([EvPost request],
     match http_post w request with
     | Some resp => inr resp
     | None => inl ConnectionError
     end).

(** [resp.raise_for_status()]. *)
Definition raise_for_status (resp : Response) : M unit :=
  if ok resp then ret tt else raise (HTTPError (status_code resp)).

(** [resp.json()]. *)
Definition json (resp : Response) : M string :=
  match resp_json resp with
  | Some body => ret body
  | None => raise JSONDecodeError
  end.

(** ** The wrapper *)

Record JiraAPIWrapper := {
  jira_url : string;
  jira_user : string;
  jira_token : string;
  headers : list (string * string)
}.

(** [JiraAPIWrapper._basic_auth], from the two attributes it reads. *)
Definition _basic_auth (jira_user jira_token : string) : string :=
  let token_bytes := jira_user ++ ":" ++ jira_token in
  "Basic " ++ b64encode token_bytes.

(** [JiraAPIWrapper.__init__]: no request is made. *)
Definition __init__ (jira_url jira_user jira_token : string)
    : JiraAPIWrapper :=
  {| jira_url := PyStr.rstrip "/" jira_url;
     jira_user := jira_user;
     jira_token := jira_token;
     headers := [("Authorization", _basic_auth jira_user jira_token);
                 ("Content-Type", "application/json")] |}.

(** [JiraAPIWrapper.create_test_plan]. *)
Definition create_test_plan (self : JiraAPIWrapper) (project_key : string)
    (summary description : option string) : M string :=
  summary <-
    (if negb (PyStr.truthy summary) then
       dt <- datetime_now ;;
       ret (strftime dt ++ " MagicPod Test Plan")
     else ret (get summary "")) ;;
  let description :=
    if negb (PyStr.truthy description)
    then "Created automatically by script"
    else get description "" in
  let url := jira_url self ++ "/rest/api/3/issue" in
  let payload :=
    {| project_key := project_key;
       fields_summary := summary;
       fields_description := description;
       issuetype_name := "Test Plan" |} in
  resp <- requests_post url (headers self) payload ;;
  try_except (raise_for_status resp)
    (fun e =>
       match e with
       | HTTPError _ =>
           print CreateFailed ;;
           print (ResponseText (text resp)) ;;
           raise e
       | _ => raise e
       end) ;;
  json resp.

(** ** The entry point *)

(** The parsed command line; the three connection settings default to
    environment variables that may be unset. *)
Record Args := {
  arg_jira_url : option string;
  arg_jira_user : option string;
  arg_jira_token : option string;
  arg_project : string;
  arg_summary : option string;
  arg_description : option string
}.

(** The body of [if __name__ == "__main__"], after argument parsing. *)
Definition main (args : Args) : M unit :=
  (if negb (PyStr.truthy (arg_jira_url args))
      || negb (PyStr.truthy (arg_jira_user args))
      || negb (PyStr.truthy (arg_jira_token args))
   then raise (SystemExit 2)
   else ret tt) ;;
  let api := __init__ (get (arg_jira_url args) "")
                      (get (arg_jira_user args) "")
                      (get (arg_jira_token args) "") in
  result <- create_test_plan api (arg_project args) (arg_summary args)
              (arg_description args) ;;
  print CreatedSuccessfully ;;
  print (DumpResult result).

(** ** Reference definitions *)

(** The position of a character in a string. *)
Fixpoint index_of (c : ascii) (s : string) : option N :=
  match s with
  | EmptyString => None
  | String a t => if Ascii.eqb c a then Some 0%N
                  else option_map N.succ (index_of c t)
  end.

Definition b64_index (c : ascii) : option N := index_of c b64_alphabet.

Definition is_empty (s : string) : bool :=
  match s with
  | EmptyString => true
  | String _ _ => false
  end.

(** A Base64 decoder: four characters give three bytes, and a final group
    padded with "=" gives one or two. *)
Fixpoint b64decode (s : string) : option string :=
  match s with
  | EmptyString => Some EmptyString
  | String c1 (String c2 (String c3 (String c4 t))) =>
      match b64_index c1, b64_index c2 with
      | Some s1, Some s2 =>
          let a := ascii_of_N (s1 * 4 + s2 / 16) in
          if Ascii.eqb c3 pad then
            if Ascii.eqb c4 pad && is_empty t
            then Some (String a EmptyString)
            else None
          else
            match b64_index c3 with
            | Some s3 =>
                let b := ascii_of_N (s2 mod 16 * 16 + s3 / 4) in
                if Ascii.eqb c4 pad then
                  if is_empty t
                  then Some (String a (String b EmptyString))
                  else None
                else
                  match b64_index c4, b64decode t with
                  | Some s4, Some rest =>
                      Some (String a
                              (String b
                                 (String (ascii_of_N (s3 mod 4 * 64 + s4))
                                    rest)))
                  | _, _ => None
                  end
            | None => None
            end
      | _, _ => None
      end
  | _ => None
  end%N.


(** The request [create_test_plan] sends. *)
Definition plan_request (self : JiraAPIWrapper) (project_key : string)
    (summary description : option string) (w : World) : Request :=
  {| req_url := jira_url self ++ "/rest/api/3/issue";
     req_headers := headers self;
     req_json :=
       {| project_key := project_key;
          fields_summary :=
            if PyStr.truthy summary then get summary ""
            else strftime (now w) ++ " MagicPod Test Plan";
          fields_description :=
            if PyStr.truthy description then get description ""
            else "Created automatically by script";
          issuetype_name := "Test Plan" |} |}.

(** ** Sample inputs *)

Definition sample_now : datetime :=
  {| year := 2026; month := 3; day := 9; hour := 7; minute := 5 |}.

Definition created : Response :=
  {| status_code := 201; text := "{}"; resp_json := Some "{}" |}.

Definition forbidden : Response :=
  {| status_code := 403; text := "no permission"; resp_json := None |}.

Definition sample_world (answer : option Response) : World :=
  {| http_post := fun _ => answer; now := sample_now |}.

Definition sample_args (summary : option string) : Args :=
  {| arg_jira_url := Some "https://example.atlassian.net/";
     arg_jira_user := Some "me@example.com";
     arg_jira_token := Some "s3cret";
     arg_project := "XSP";
     arg_summary := summary;
     arg_description := None |}.

End Jira.

(** * Verification *)

(** ** Facts about the string operations *)

Lemma mem_cons (c a : ascii) (t : string) :
  PyStr.mem c (String a t) = Ascii.eqb c a || PyStr.mem c t.
Proof. reflexivity. Qed.

(** A one-character [in] test is a membership test. *)
Lemma contains_char (c : ascii) (s : string) :
  PyStr.contains (String c "") s = PyStr.mem c s.
Proof.
  induction s as [|a t IH]; simpl.
  - reflexivity.
  - rewrite andb_true_r, IH. reflexivity.
Qed.

Lemma mem_in_not_in (a c : ascii) (chars : string) :
  PyStr.mem a chars = true -> PyStr.mem c chars = false ->
  Ascii.eqb c a = false.
Proof.
  intros Ha Hc. destruct (Ascii.eqb_spec c a) as [->|]; [|reflexivity].
  congruence.
Qed.

Lemma mem_lstrip (c : ascii) (chars s : string) :
  PyStr.mem c chars = false ->
  PyStr.mem c (PyStr.lstrip chars s) = PyStr.mem c s.
Proof.
  intros Hc. induction s as [|a t IH]; simpl; [reflexivity|].
  destruct (PyStr.mem a chars) eqn:Ha; [|reflexivity].
  rewrite IH, (mem_in_not_in a c chars Ha Hc). reflexivity.
Qed.

Lemma mem_rstrip (c : ascii) (chars s : string) :
  PyStr.mem c chars = false ->
  PyStr.mem c (PyStr.rstrip chars s) = PyStr.mem c s.
Proof.
  intros Hc. induction s as [|a t IH]; simpl; [reflexivity|].
  destruct (PyStr.rstrip chars t) as [|b t'] eqn:Ht.
  - destruct (PyStr.mem a chars) eqn:Ha; simpl; rewrite <- IH; simpl.
    + rewrite (mem_in_not_in a c chars Ha Hc). reflexivity.
    + reflexivity.
  - simpl. rewrite <- IH. reflexivity.
Qed.

(** Stripping characters of [chars] keeps every other character. *)
Lemma mem_strip (c : ascii) (chars s : string) :
  PyStr.mem c chars = false ->
  PyStr.mem c (PyStr.strip chars s) = PyStr.mem c s.
Proof.
  intros Hc. unfold PyStr.strip.
  rewrite mem_lstrip, mem_rstrip by assumption. reflexivity.
Qed.

Lemma mem_strip_one_trailing (c d : ascii) (s : string) :
  Ascii.eqb c d = false ->
  PyStr.mem c (strip_one_trailing d s) = PyStr.mem c s.
Proof.
  intros Hcd. induction s as [|a t IH]; [reflexivity|].
  destruct t as [|b t'].
  - simpl. destruct (Ascii.eqb_spec a d) as [->|]; simpl.
    + rewrite Hcd. reflexivity.
    + reflexivity.
  - change (strip_one_trailing d (String a (String b t')))
      with (String a (strip_one_trailing d (String b t'))).
    rewrite (mem_cons c a (strip_one_trailing d (String b t'))), IH.
    reflexivity.
Qed.

(** *** [split] and the text after the last separator *)

Lemma after_last_absent (c : ascii) (s : string) :
  PyStr.mem c s = false -> after_last c s = s.
Proof.
  induction s as [|a t IH]; simpl; intros H; [reflexivity|].
  apply orb_false_elim in H as [Ha Ht].
  rewrite Ht, Ascii.eqb_sym, Ha. reflexivity.
Qed.

Lemma after_last_no_sep (c : ascii) (s : string) :
  PyStr.mem c (after_last c s) = false.
Proof.
  induction s as [|a t IH]; simpl; [reflexivity|].
  destruct (PyStr.mem c t) eqn:Ht; [exact IH|].
  destruct (Ascii.eqb a c) eqn:Ha; [exact Ht|].
  simpl. rewrite Ascii.eqb_sym, Ha, Ht. reflexivity.
Qed.

(** When [c] occurs, [after_last c s] is what follows an occurrence of [c]
    and has no [c] itself: it follows the last one. *)
Lemma after_last_decompose (c : ascii) (s : string) :
  PyStr.mem c s = true ->
  exists pre, s = pre ++ String c (after_last c s).
Proof.
  induction s as [|a t IH]; simpl; intros H; [discriminate|].
  destruct (PyStr.mem c t) eqn:Ht.
  - destruct (IH eq_refl) as [pre Hpre].
    exists (String a pre). simpl. rewrite <- Hpre. reflexivity.
  - rewrite orb_false_r in H. apply Ascii.eqb_eq in H. subst a.
    rewrite Ascii.eqb_refl. exists "". reflexivity.
Qed.

Lemma split_absent (sep : ascii) (s : string) :
  PyStr.mem sep s = false -> PyStr.split sep s = [s].
Proof.
  induction s as [|a t IH]; simpl; intros H; [reflexivity|].
  apply orb_false_elim in H as [Ha Ht].
  rewrite Ascii.eqb_sym, Ha, (IH Ht). reflexivity.
Qed.

Lemma split_present (sep : ascii) (s : string) :
  PyStr.mem sep s = true ->
  exists p q r, PyStr.split sep s = p :: q :: r.
Proof.
  induction s as [|a t IH]; simpl; intros H; [discriminate|].
  rewrite (Ascii.eqb_sym sep a) in H.
  destruct (Ascii.eqb a sep) eqn:Ha.
  - destruct (PyStr.mem sep t) eqn:Ht.
    + destruct (IH eq_refl) as (p & q & r & E). rewrite E. eauto.
    + rewrite (split_absent sep t Ht). eauto.
  - simpl in H. destruct (IH H) as (p & q & r & E). rewrite E. eauto.
Qed.

(** The last piece of [s.split(sep)] is the text after the last [sep]. *)
Lemma last_piece_split (sep : ascii) (s : string) :
  PyStr.last_piece (PyStr.split sep s) = after_last sep s.
Proof.
  unfold PyStr.last_piece.
  induction s as [|a t IH]; [reflexivity|].
  simpl PyStr.split. simpl after_last.
  destruct (PyStr.mem sep t) eqn:Ht.
  - destruct (split_present sep t Ht) as (p & q & r & E).
    rewrite E in *. destruct (Ascii.eqb a sep); exact IH.
  - rewrite (split_absent sep t Ht) in *.
    rewrite (after_last_absent sep t Ht) in IH.
    destruct (Ascii.eqb a sep); reflexivity.
Qed.

(** *** [strip] removes exactly the leading and trailing characters of the
    given set *)

Lemma lstrip_decompose (chars s : string) :
  exists l, s = l ++ PyStr.lstrip chars s /\ all_in chars l = true /\
            starts_in chars (PyStr.lstrip chars s) = false.
Proof.
  induction s as [|a t IH]; simpl.
  - exists "". auto.
  - destruct (PyStr.mem a chars) eqn:Ha.
    + destruct IH as (l & E & Hl & Hs).
      exists (String a l). simpl. rewrite Ha, Hl, <- E. auto.
    + exists "". simpl. auto.
Qed.

Lemma rstrip_decompose (chars s : string) :
  exists r, s = PyStr.rstrip chars s ++ r /\ all_in chars r = true /\
            ends_in chars (PyStr.rstrip chars s) = false.
Proof.
  induction s as [|a t IH]; simpl.
  - exists "". auto.
  - destruct IH as (r & E & Hr & He).
    destruct (PyStr.rstrip chars t) as [|b t'] eqn:Ht.
    + simpl in E. subst r.
      destruct (PyStr.mem a chars) eqn:Ha.
      * exists (String a t). simpl. rewrite Ha, Hr. auto.
      * exists t. simpl. rewrite Ha. destruct t; auto.
    + exists r. rewrite E at 1. split; [reflexivity|]. split; [exact Hr|].
      exact He.
Qed.

Lemma ends_in_lstrip (chars s : string) :
  ends_in chars s = false -> ends_in chars (PyStr.lstrip chars s) = false.
Proof.
  induction s as [|a t IH]; [reflexivity|].
  intros H. simpl PyStr.lstrip.
  destruct (PyStr.mem a chars) eqn:Ha; [|exact H].
  apply IH. destruct t; [reflexivity | exact H].
Qed.

Lemma append_assoc (a b c : string) : (a ++ b) ++ c = a ++ (b ++ c).
Proof. induction a as [|x a IH]; simpl; [reflexivity | now rewrite IH]. Qed.

(** [s.strip(chars)] is [s] without a prefix and a suffix made of characters
    of [chars]; what remains neither starts nor ends with one. *)
Lemma strip_decompose (chars s : string) :
  exists l r,
    s = l ++ PyStr.strip chars s ++ r /\
    all_in chars l = true /\ all_in chars r = true /\
    starts_in chars (PyStr.strip chars s) = false /\
    ends_in chars (PyStr.strip chars s) = false.
Proof.
  unfold PyStr.strip.
  destruct (rstrip_decompose chars s) as (r & Er & Hr & He).
  destruct (lstrip_decompose chars (PyStr.rstrip chars s)) as (l & El & Hl & Hs).
  exists l, r. repeat split; auto.
  - rewrite <- append_assoc, <- El. exact Er.
  - apply ends_in_lstrip. exact He.
Qed.

(** ** The status mapper *)

Lemma or_else_some (s : string) : PyStr.or_else (Some s) "" = s.
Proof. destruct s; reflexivity. Qed.

(** The three outcomes of [map_status], by the two substring tests. *)
Lemma map_status_cases (mp_status : option string) :
  let s := PyStr.lower (PyStr.or_else mp_status "") in
  map_status mp_status =
    if PyStr.contains s "succeeded" then "PASSED"
    else if PyStr.contains s "failed" then "FAILED"
    else "TODO".
Proof.
  unfold map_status. cbv zeta.
  destruct (PyStr.contains _ "succeeded"); [reflexivity|].
  destruct (PyStr.contains _ "failed"); [reflexivity|].
  destruct (String.eqb _ "skipped"); reflexivity.
Qed.

(** [map_status] is total: every input is mapped into the destination
    vocabulary. *)
Lemma map_status_total (mp_status : option string) :
  In (map_status mp_status) ["PASSED"; "FAILED"; "TODO"].
Proof.
  rewrite map_status_cases. cbv zeta.
  destruct (PyStr.contains _ "succeeded"); [simpl; auto|].
  destruct (PyStr.contains _ "failed"); simpl; auto.
Qed.

(** C1: on the empty string and on an absent value, neither of which is one
    of the three known labels, [map_status] returns PASSED and not TODO: the
    test [mp_status in ("succeeded")] is a substring test, and the empty
    string is a substring of every string.  The same test sends a proper
    fragment of a label, such as "fail", to that label's status. *)
Theorem map_status_empty_is_PASSED :
  map_status (Some "") = "PASSED" /\
  map_status None = "PASSED" /\
  map_status (Some "fail") = "FAILED" /\
  PyStr.lower "" <> "succeeded" /\
  PyStr.lower "" <> "failed" /\
  PyStr.lower "" <> "skipped".
Proof. repeat split; try reflexivity; discriminate. Qed.

(** C7: a status that lower-cases to "succeeded" is mapped to PASSED, one
    that lower-cases to "failed" to FAILED, and one that lower-cases to
    "skipped" to TODO, whatever its casing. *)
Theorem map_status_known_labels (mp_status label xray : string) :
  In (label, xray) known_labels ->
  PyStr.lower mp_status = label ->
  map_status (Some mp_status) = xray.
Proof.
  intros Hin Hlow. unfold map_status. rewrite or_else_some, Hlow.
  simpl in Hin.
  destruct Hin as [E | [E | [E | []]]];
    injection E as <- <-; reflexivity.
Qed.

Lemma map_status_known_labels_witness :
  map_status (Some "SUCCEEDED") = "PASSED" /\
  map_status (Some "Failed") = "FAILED" /\
  map_status (Some "sKiPPed") = "TODO".
Proof.
  split; [|split].
  - apply (map_status_known_labels "SUCCEEDED" "succeeded" "PASSED");
      [simpl; auto | reflexivity].
  - apply (map_status_known_labels "Failed" "failed" "FAILED");
      [simpl; auto | reflexivity].
  - apply (map_status_known_labels "sKiPPed" "skipped" "TODO");
      [simpl; auto | reflexivity].
Defined.

(** ** The test-identity resolver *)

Lemma candidate_after_last (name : string) :
  candidate name = PyStr.strip "]" (after_last "[" name).
Proof. unfold candidate. rewrite last_piece_split. reflexivity. Qed.

(** The hyphen test gives the same answer on the candidate of the code and
    on the candidate of [resolver_spec]: stripping brackets removes no
    hyphen. *)
Lemma hyphen_test_agrees (name : string) :
  PyStr.contains "-" (candidate name) =
  PyStr.contains "-" (strip_one_trailing "]" (after_last "[" name)).
Proof.
  rewrite candidate_after_last, !contains_char.
  rewrite mem_strip by reflexivity.
  rewrite mem_strip_one_trailing by reflexivity. reflexivity.
Qed.

(** A key that is extracted is never the empty string. *)
Lemma test_key_nonempty (name k : string) :
  test_key name = Some k -> k <> "".
Proof.
  unfold test_key.
  destruct (PyStr.contains "[" name && PyStr.contains "]" name); [|discriminate].
  destruct (PyStr.contains "-" (candidate name)) eqn:H; [|discriminate].
  intros E. injection E as <-. intros E. rewrite E in H. discriminate.
Qed.

(** C4 (amended): a test key is extracted exactly when the name contains
    both a "[" and a "]" and the text after the last "[", with every leading
    and trailing "]" stripped, contains a "-"; the key is then that stripped
    text.  Without a bracket pair, or without a hyphen in the candidate,
    there is no key.  "Login [PROJ-12]" has key "PROJ-12" and
    "Smoke [nohyphen]" has none. *)
Theorem test_key_resolver (name : string) :
  let cand := PyStr.strip "]" (after_last "[" name) in
  (forall k,
     test_key name = Some k <->
     PyStr.contains "[" name = true /\ PyStr.contains "]" name = true /\
     PyStr.contains "-" cand = true /\ k = cand) /\
  (PyStr.contains "[" name = false \/ PyStr.contains "]" name = false \/
   PyStr.contains "-" cand = false -> test_key name = None) /\
  test_key "Login [PROJ-12]" = Some "PROJ-12" /\
  test_key "Smoke [nohyphen]" = None.
Proof.
  cbv zeta. unfold test_key. rewrite candidate_after_last.
  split; [|split; [|split; reflexivity]].
  - intros k.
    destruct (PyStr.contains "[" name); simpl;
      [|split; [discriminate | intros (H & _); discriminate]].
    destruct (PyStr.contains "]" name); simpl;
      [|split; [discriminate | intros (_ & H & _); discriminate]].
    destruct (PyStr.contains "-" _);
      [|split; [discriminate | intros (_ & _ & H & _); discriminate]].
    split.
    + intros E. injection E as <-. auto.
    + intros (_ & _ & _ & ->). reflexivity.
  - intros [H | [H | H]]; rewrite H.
    + reflexivity.
    + rewrite andb_false_r. reflexivity.
    + destruct (_ && _); reflexivity.
Qed.

Lemma test_key_resolver_witness :
  test_key "Smoke test" = None /\
  test_key "Test [x] [PROJ-5]" = Some "PROJ-5".
Proof.
  split.
  - destruct (test_key_resolver "Smoke test") as (_ & H & _).
    apply H. left. reflexivity.
  - destruct (test_key_resolver "Test [x] [PROJ-5]") as (H & _).
    apply H. repeat split; reflexivity.
Defined.

(** C4 (as stated): on "Login []PROJ-12]" the code strips the "]" on both
    sides of the text after the last "[" and extracts "PROJ-12", while the
    text after the last "[" with a trailing "]" stripped is "]PROJ-12"; the
    same holds when every trailing "]" is stripped.  On "Login [PROJ-12]]"
    the code extracts "PROJ-12" and removing one trailing "]" leaves
    "PROJ-12]". *)
Lemma test_key_not_trailing_strip :
  test_key "Login []PROJ-12]" = Some "PROJ-12" /\
  resolver_spec "Login []PROJ-12]" = Some "]PROJ-12" /\
  PyStr.rstrip "]" (after_last "[" "Login []PROJ-12]") = "]PROJ-12" /\
  test_key "Login []PROJ-12]" <> resolver_spec "Login []PROJ-12]" /\
  test_key "Login [PROJ-12]]" = Some "PROJ-12" /\
  resolver_spec "Login [PROJ-12]]" = Some "PROJ-12]".
Proof. repeat split; try reflexivity. discriminate. Qed.

(** ** The converter *)

Lemma fold_append_map {A B : Type} (f : A -> B) (l : list A) (acc : list B) :
  fold_left (fun acc x => (acc ++ [f x])%list) l acc = (acc ++ map f l)%list.
Proof.
  revert acc. induction l as [|x l IH]; intros acc; simpl.
  - rewrite app_nil_r. reflexivity.
  - rewrite IH, <- app_assoc. reflexivity.
Qed.

(** The inner loop appends the entries of one group, in order. *)
Lemma append_results_map (tests : list TestEntry) (detail : Detail) :
  append_results tests detail =
  (tests ++ map test_entry (get (d_results detail) []))%list.
Proof. unfold append_results. apply fold_append_map. Qed.

(** The two loops append one entry per result record, in document order. *)
Lemma convert_details_map (mp : Report) (tests : list TestEntry) :
  convert_details mp tests = (tests ++ map test_entry (result_records mp))%list.
Proof.
  unfold convert_details, result_records, details_of.
  replace (get (tcs_details (get (mp_test_cases mp) {| tcs_details := None |})) [])
    with (match mp_test_cases mp with
          | Some tcs => match tcs_details tcs with
                        | Some ds => ds
                        | None => []
                        end
          | None => []
          end)
    by (destruct (mp_test_cases mp) as [[[ds|]]|]; reflexivity).
  generalize (match mp_test_cases mp with
              | Some tcs => match tcs_details tcs with
                            | Some ds => ds
                            | None => []
                            end
              | None => []
              end).
  intros ds. revert tests.
  induction ds as [|d ds IH]; intros tests; simpl.
  - rewrite app_nil_r. reflexivity.
  - rewrite IH, append_results_map, map_app, <- app_assoc.
    destruct (d_results d); reflexivity.
Qed.

(** Every run of the converter: it opens the file and then fails on a file
    it cannot load, on a summary override, or on a report without url, and
    otherwise returns the document with the default info. *)
Lemma convert_run (mp_file : string) (override : option string) (w : World) :
  convert_magicpod_to_xray mp_file override w =
  ([EvOpen mp_file],
   match fs w mp_file with
   | Missing => inl (FileNotFoundError mp_file)
   | Unreadable => inl (PermissionError mp_file)
   | Malformed => inl JSONDecodeError
   | Holds mp =>
       if PyStr.truthy override then inl (UnboundLocalError "description")
       else match mp_url mp with
            | None => inl (KeyError "url")
            | Some u => inr {| info := default_info u;
                               tests := map test_entry (result_records mp) |}
            end
   end).
Proof.
  unfold convert_magicpod_to_xray, bind, load_json.
  destruct (fs w mp_file) as [| | |mp]; try reflexivity.
  destruct (PyStr.truthy override); simpl; [reflexivity|].
  unfold subscript_url. destruct (mp_url mp) as [u|]; simpl; [|reflexivity].
  rewrite convert_details_map. reflexivity.
Qed.

(** The converter raises on every report as soon as a summary is supplied:
    [description] is read without having been assigned. *)
Lemma convert_with_override (mp_file : string) (override : option string)
    (w : World) (mp : Report) :
  fs w mp_file = Holds mp ->
  PyStr.truthy override = true ->
  outcome (convert_magicpod_to_xray mp_file override w)
  = inl (UnboundLocalError "description").
Proof.
  intros Hfs Hov. rewrite convert_run, Hfs, Hov. reflexivity.
Qed.

(** C2: with the summary "Nightly run" supplied by the caller, the
    converter does not return a document whose [info.summary] is that
    summary: building [info] reads the local variable [description], which
    is assigned only when no summary is supplied, and the call ends with
    [UnboundLocalError]. *)
Theorem override_leaves_description_unbound :
  PyStr.truthy (Some "Nightly run") = true /\
  outcome (convert_magicpod_to_xray "magicpod_result" (Some "Nightly run")
             (sample_world (Holds sample_report) 0))
  = inl (UnboundLocalError "description").
Proof. split; reflexivity. Qed.

(** C5: the [tests] sequence of a converted document holds one entry per
    result record of the report, none dropped and none merged, in document
    order: the detail groups in order and the results of each group in
    order. *)
Theorem tests_one_per_result (mp_file : string) (override : option string)
    (w : World) (doc : Execution) :
  outcome (convert_magicpod_to_xray mp_file override w) = inr doc ->
  exists mp,
    fs w mp_file = Holds mp /\
    tests doc = map test_entry (result_records mp) /\
    length (tests doc) = length (result_records mp).
Proof.
  rewrite convert_run. unfold outcome. simpl.
  destruct (fs w mp_file) as [| | |mp]; try discriminate.
  destruct (PyStr.truthy override); [discriminate|].
  destruct (mp_url mp) as [u|]; [|discriminate].
  intros E. injection E as <-. exists mp. simpl.
  rewrite length_map. auto.
Qed.

Lemma tests_one_per_result_witness :
  exists mp,
    fs (sample_world (Holds sample_report) 0) "magicpod_result" = Holds mp /\
    tests sample_execution = map test_entry (result_records mp) /\
    length (tests sample_execution) = length (result_records mp).
Proof.
  exact (tests_one_per_result "magicpod_result" None
           (sample_world (Holds sample_report) 0) sample_execution eq_refl).
Defined.

(** The entry built for a result record has exactly one of ["testKey"] and
    ["testInfo"], and its ["testInfo"] is the test name with type Manual. *)
Lemma test_entry_identity (result : Result) :
  exactly_one_identity (test_entry result) /\
  forall ti, testInfo (test_entry result) = Some ti ->
             ti = {| ti_summary := test_name result; ti_type := "Manual" |}.
Proof.
  unfold test_entry, exactly_one_identity.
  destruct (test_key (test_name result)) as [[|a k]|]; simpl.
  - split; [right; split; [reflexivity | discriminate]|].
    intros ti E. injection E as <-. reflexivity.
  - split; [left; split; [discriminate | reflexivity]|].
    intros ti E. discriminate.
  - split; [right; split; [reflexivity | discriminate]|].
    intros ti E. injection E as <-. reflexivity.
Qed.

(** C6: every entry of a converted document has exactly one of the fields
    ["testKey"] and ["testInfo"], never both and never neither; where
    ["testInfo"] is present, its summary is the name of the test of the
    result record the entry was built from and its type is "Manual". *)
Theorem entries_have_one_identity (mp_file : string)
    (override : option string) (w : World) (doc : Execution) :
  outcome (convert_magicpod_to_xray mp_file override w) = inr doc ->
  exists mp,
    fs w mp_file = Holds mp /\
    Forall2
      (fun result entry =>
         exactly_one_identity entry /\
         forall ti, testInfo entry = Some ti ->
                    ti_summary ti = test_name result /\ ti_type ti = "Manual")
      (result_records mp) (tests doc).
Proof.
  rewrite convert_run. unfold outcome. simpl.
  destruct (fs w mp_file) as [| | |mp]; try discriminate.
  destruct (PyStr.truthy override); [discriminate|].
  destruct (mp_url mp) as [u|]; [|discriminate].
  intros E. injection E as <-. exists mp. split; [reflexivity|]. simpl.
  induction (result_records mp) as [|r rs IH]; simpl; constructor.
  - destruct (test_entry_identity r) as [H1 H2]. split; [exact H1|].
    intros ti Hti. rewrite (H2 ti Hti). split; reflexivity.
  - exact IH.
Qed.

Lemma entries_have_one_identity_witness :
  exists mp,
    fs (sample_world (Holds sample_report) 0) "magicpod_result" = Holds mp /\
    Forall2
      (fun result entry =>
         exactly_one_identity entry /\
         forall ti, testInfo entry = Some ti ->
                    ti_summary ti = test_name result /\ ti_type ti = "Manual")
      (result_records mp) (tests sample_execution).
Proof.
  exact (entries_have_one_identity "magicpod_result" None
           (sample_world (Holds sample_report) 0) sample_execution eq_refl).
Defined.

(** A report without ["test_cases"], or whose ["test_cases"] has no
    ["details"], has no result record. *)
Lemma absent_details_no_records (mp : Report) :
  mp_test_cases mp = None \/
  (exists tcs, mp_test_cases mp = Some tcs /\ tcs_details tcs = None) ->
  result_records mp = [].
Proof.
  unfold result_records, details_of.
  intros [H | (tcs & H & Hd)]; rewrite H; [|rewrite Hd]; reflexivity.
Qed.

(** The name given to a result record whose test case has no name, or that
    has no test case. *)
Lemma unnamed_test (result : Result) :
  r_test_case result = None \/
  (exists tc, r_test_case result = Some tc /\ tc_name tc = None) ->
  test_name result = "Unnamed Test".
Proof.
  unfold test_name.
  intros [H | (tc & H & Hn)]; rewrite H; simpl; [|rewrite Hn]; reflexivity.
Qed.

(** C8 (amended): a report that has a url and whose ["test_cases"] or
    ["details"] field is absent converts, when no summary is supplied,
    without error to a document with an empty [tests] sequence and a
    non-empty [info.summary]; and a result record whose test case lacks a
    name is given the name "Unnamed Test", which its entry carries in its
    comment and in its ["testInfo"]. *)
Theorem absent_details_convert (mp_file : string) (override : option string)
    (w : World) (mp : Report) (u : string) :
  fs w mp_file = Holds mp ->
  mp_url mp = Some u ->
  PyStr.truthy override = false ->
  mp_test_cases mp = None \/
  (exists tcs, mp_test_cases mp = Some tcs /\ tcs_details tcs = None) ->
  (exists doc,
     outcome (convert_magicpod_to_xray mp_file override w) = inr doc /\
     tests doc = [] /\
     summary (info doc) = "MagicPod Batch Run: " ++ u /\
     summary (info doc) <> "") /\
  (forall result tc,
     r_test_case result = Some tc -> tc_name tc = None ->
     test_name result = "Unnamed Test" /\
     comment (test_entry result)
     = "Imported from MagicPod. Original test: Unnamed Test" /\
     testKey (test_entry result) = None /\
     testInfo (test_entry result)
     = Some {| ti_summary := "Unnamed Test"; ti_type := "Manual" |}).
Proof.
  intros Hfs Hurl Hov Habs. split.
  - rewrite convert_run, Hfs, Hov, Hurl.
    rewrite (absent_details_no_records mp Habs).
    eexists. split; [reflexivity|]. simpl. repeat split. discriminate.
  - intros result tc Htc Hn.
    assert (E : test_name result = "Unnamed Test")
      by (apply unnamed_test; right; eauto).
    unfold test_entry. rewrite E. repeat split.
Qed.

Lemma absent_details_convert_witness :
  (exists doc,
     outcome (convert_magicpod_to_xray "magicpod_result" None
                (sample_world
                   (Holds {| mp_url := Some "https://app.magicpod.com/run/7";
                             mp_test_cases := None |}) 0)) = inr doc /\
     tests doc = [] /\
     summary (info doc)
     = "MagicPod Batch Run: " ++ "https://app.magicpod.com/run/7" /\
     summary (info doc) <> "") /\
  test_name {| r_test_case := Some {| tc_name := None |};
               r_status := Some "failed" |} = "Unnamed Test".
Proof.
  destruct (absent_details_convert "magicpod_result" None
              (sample_world
                 (Holds {| mp_url := Some "https://app.magicpod.com/run/7";
                           mp_test_cases := None |}) 0)
              {| mp_url := Some "https://app.magicpod.com/run/7";
                 mp_test_cases := None |}
              "https://app.magicpod.com/run/7"
              eq_refl eq_refl eq_refl (or_introl eq_refl)) as [Hdoc Hname].
  split; [exact Hdoc|].
  apply (Hname _ {| tc_name := None |}); reflexivity.
Defined.

(** C8 (as stated): the report [{}], which has neither ["test_cases"] nor
    ["url"], does not convert to a document when no summary is supplied:
    the default summary reads [mp['url']] and the call ends with
    [KeyError]. *)
Lemma absent_details_without_url :
  mp_test_cases {| mp_url := None; mp_test_cases := None |} = None /\
  outcome (convert_magicpod_to_xray "magicpod_result" None
             (sample_world
                (Holds {| mp_url := None; mp_test_cases := None |}) 0))
  = inl (KeyError "url") /\
  ~ exists doc,
      outcome (convert_magicpod_to_xray "magicpod_result" None
                 (sample_world
                    (Holds {| mp_url := None; mp_test_cases := None |}) 0))
      = inr doc.
Proof.
  repeat split. intros [doc H]. discriminate H.
Qed.

(** C9: without a caller-supplied summary, the result of the converter is
    determined by what the report file holds: two runs that find the same
    content end with the same [info] and [tests] (or with the same error),
    whatever the clock and the network of each run. *)
Theorem convert_deterministic (mp_file : string) (w1 w2 : World) :
  fs w1 mp_file = fs w2 mp_file ->
  convert_magicpod_to_xray mp_file None w1
  = convert_magicpod_to_xray mp_file None w2 /\
  forall doc1 doc2,
    outcome (convert_magicpod_to_xray mp_file None w1) = inr doc1 ->
    outcome (convert_magicpod_to_xray mp_file None w2) = inr doc2 ->
    info doc1 = info doc2 /\ tests doc1 = tests doc2.
Proof.
  intros Hfs.
  assert (E : convert_magicpod_to_xray mp_file None w1
              = convert_magicpod_to_xray mp_file None w2)
    by (rewrite !convert_run, Hfs; reflexivity).
  split; [exact E|].
  intros doc1 doc2 H1 H2. rewrite E, H2 in H1.
  injection H1 as <-. auto.
Qed.

Lemma convert_deterministic_witness :
  convert_magicpod_to_xray "magicpod_result" None
    (sample_world (Holds sample_report) 1700000000)
  = convert_magicpod_to_xray "magicpod_result" None
      {| fs := fun _ => Holds sample_report;
         http_post := fun _ => None;
         clock := 1800000000 |}.
Proof.
  apply (convert_deterministic "magicpod_result"
           (sample_world (Holds sample_report) 1700000000)
           {| fs := fun _ => Holds sample_report;
              http_post := fun _ => None;
              clock := 1800000000 |}).
  reflexivity.
Defined.

(** Two conversions in a row, in one run, return the same document. *)
Lemma convert_twice (mp_file : string) (w : World) (doc1 doc2 : Execution) :
  outcome ((d1 <- convert_magicpod_to_xray mp_file None ;;
            d2 <- convert_magicpod_to_xray mp_file None ;;
            ret (d1, d2)) w) = inr (doc1, doc2) ->
  doc1 = doc2.
Proof.
  unfold bind. rewrite convert_run. unfold outcome, ret.
  destruct (fs w mp_file) as [| | |mp]; try discriminate.
  simpl. destruct (mp_url mp) as [u|]; [|discriminate].
  simpl. intros E. injection E as <- <-. reflexivity.
Qed.

(** C10: when the report has no ["url"] and no summary is supplied, the
    converter ends with [KeyError] on ["url"] and produces no document. *)
Theorem missing_url_is_KeyError (mp_file : string) (override : option string)
    (w : World) (mp : Report) :
  fs w mp_file = Holds mp ->
  mp_url mp = None ->
  PyStr.truthy override = false ->
  outcome (convert_magicpod_to_xray mp_file override w) = inl (KeyError "url").
Proof.
  intros Hfs Hurl Hov. rewrite convert_run, Hfs, Hov, Hurl. reflexivity.
Qed.

Lemma missing_url_is_KeyError_witness :
  outcome (convert_magicpod_to_xray "magicpod_result" (Some "")
             (sample_world
                (Holds {| mp_url := None;
                          mp_test_cases := mp_test_cases sample_report |}) 0))
  = inl (KeyError "url").
Proof.
  apply (missing_url_is_KeyError "magicpod_result" (Some "")
           (sample_world
              (Holds {| mp_url := None;
                        mp_test_cases := mp_test_cases sample_report |}) 0)
           {| mp_url := None;
              mp_test_cases := mp_test_cases sample_report |});
    reflexivity.
Defined.

(** ** The entry point *)

(** The constructor of the importer sends one request, the authentication
    request, and nothing else. *)
Lemma init_trace (url id secret : string) (w : World) :
  exists req,
    trace (XrayResultImporter_init url id secret w) = [EvPost req] /\
    is_authentication_request (EvPost req) = true.
Proof.
  unfold XrayResultImporter_init, authenticate, bind, requests_post,
    raise_for_status.
  eexists. split.
  - destruct (http_post w _) as [resp|]; [|reflexivity].
    destruct (ok resp); reflexivity.
  - reflexivity.
Qed.

(** The runs of the entry point on a report file that cannot be loaded:
    nothing happens when a credential is missing; otherwise the
    authentication request is sent and, when it succeeds, the file is
    opened and the run ends there. *)
Lemma main_unparsed_run (args : Args) (w : World) :
  parsed w (arg_magicpod_json args) = false ->
  exists e tr,
    main args w = (tr, inl e) /\
    (tr = [] \/
     exists req,
       is_authentication_request (EvPost req) = true /\
       (tr = [EvPost req] \/
        tr = [EvPost req; EvOpen (arg_magicpod_json args)])).
Proof.
  intros Hfs. unfold main, bind, check_credentials.
  destruct (negb (PyStr.truthy (arg_client_id args))
            || negb (PyStr.truthy (arg_client_secret args))).
  - do 2 eexists. split; [reflexivity | left; reflexivity].
  - unfold ret at 1. cbv beta iota.
    destruct (init_trace (arg_base_url args) (get (arg_client_id args) "")
                (get (arg_client_secret args) "") w) as (req & Htr & Hreq).
    destruct (XrayResultImporter_init _ _ _ w) as [tr [e|importer]];
      unfold trace in Htr; simpl in Htr; subst tr.
    + do 2 eexists. split; [reflexivity|]. right. exists req. auto.
    + rewrite convert_run. unfold parsed in Hfs.
      destruct (fs w (arg_magicpod_json args)); try discriminate;
        (do 2 eexists; split; [reflexivity|]; right; exists req; auto).
Qed.

(** C3 (amended): when the report file is missing, unreadable or not
    parseable, the run ends with an error before any import request is
    made; the only network call that can precede the failed read is the
    authentication request, which the constructor of the importer sends
    before the file is opened. *)
Theorem unparsed_report_aborts_before_import (args : Args) (w : World) :
  parsed w (arg_magicpod_json args) = false ->
  (exists e, outcome (main args w) = inl e) /\
  existsb is_import_request (trace (main args w)) = false /\
  (In (EvOpen (arg_magicpod_json args)) (trace (main args w)) ->
   exists req,
     is_authentication_request (EvPost req) = true /\
     trace (main args w) = [EvPost req; EvOpen (arg_magicpod_json args)]).
Proof.
  intros Hfs.
  destruct (main_unparsed_run args w Hfs) as (e & tr & Hrun & Htr).
  rewrite Hrun. unfold outcome, trace. simpl fst. simpl snd.
  split; [eauto|].
  assert (Hnot : forall req, is_authentication_request (EvPost req) = true ->
                             is_import_request (EvPost req) = false).
  { intros req. simpl. destruct (req_json req); [reflexivity | discriminate]. }
  destruct Htr as [-> | (req & Hreq & [-> | ->])].
  - split; [reflexivity | intros []].
  - split.
    + cbn [existsb]. rewrite (Hnot req Hreq). reflexivity.
    + intros [H | []]. discriminate H.
  - split.
    + cbn [existsb]. rewrite (Hnot req Hreq). reflexivity.
    + intros _. exists req. auto.
Qed.

Lemma unparsed_report_aborts_before_import_witness :
  (exists e, outcome (main (sample_args None) (sample_world Malformed 0))
             = inl e) /\
  existsb is_import_request
    (trace (main (sample_args None) (sample_world Malformed 0))) = false.
Proof.
  destruct (unparsed_report_aborts_before_import (sample_args None)
              (sample_world Malformed 0) eq_refl) as (H1 & H2 & _).
  split; [exact H1 | exact H2].
Defined.

(** C3 (as stated): with valid credentials and the report file missing, the
    run sends the authentication request and only then opens the file: a
    network call has been made when the run ends with
    [FileNotFoundError]. *)
Lemma missing_report_after_authentication :
  parsed (sample_world Missing 0) (arg_magicpod_json (sample_args None))
  = false /\
  trace (main (sample_args None) (sample_world Missing 0))
  = [EvPost {| req_url := "https://xray.cloud.getxray.app/api/v2/authenticate";
               req_headers := [];
               req_json := Credentials "id" "secret" |};
     EvOpen "magicpod_result"] /\
  outcome (main (sample_args None) (sample_world Missing 0))
  = inl (FileNotFoundError "magicpod_result") /\
  existsb is_network_call
    (trace (main (sample_args None) (sample_world Missing 0))) = true.
Proof. repeat split. Qed.

(** ** Sample runs *)

(** Two detail groups of one result each convert to two entries in that
    order, the first with a test key and the second with inline test
    information. *)
Example convert_sample_report :
  outcome (convert_magicpod_to_xray "magicpod_result" None
             (sample_world (Holds sample_report) 0))
  = inr sample_execution.
Proof. reflexivity. Qed.

(** A complete run: authentication, load, the two printed lines, the
    import request with the bearer token, and the two final lines. *)
Example main_sample_run :
  map is_network_call
      (trace (main (sample_args None) (sample_world (Holds sample_report) 0)))
  = [true; false; false; false; true; false; false] /\
  outcome (main (sample_args None) (sample_world (Holds sample_report) 0))
  = inr tt.
Proof. split; reflexivity. Qed.

Example split_multiple_brackets :
  PyStr.split "[" "Test [x] [PROJ-5]" = ["Test "; "x] "; "PROJ-5]"].
Proof. reflexivity. Qed.

Example test_key_empty_brackets : test_key "Test []" = None.
Proof. reflexivity. Qed.

Example test_key_unbalanced : test_key "x] [A-1" = Some "A-1".
Proof. reflexivity. Qed.

(** * Further properties of the code *)

(** ** All runs of the entry point *)

Lemma bind_run {A B : Type} (m : M A) (k : A -> M B) (w : World) :
  bind m k w =
  match m w with
  | (tr, inl e) => (tr, inl e)
  | (tr, inr a) => ((tr ++ trace (k a w))%list, outcome (k a w))
  end.
Proof.
  unfold bind, trace, outcome.
  destruct (m w) as [tr [e|a]]; [reflexivity|].
  destruct (k a w); reflexivity.
Qed.

(** The constructor: one authentication request; the importer is built
    when the request is answered with a status that is not an error. *)
Lemma init_run (url id secret : string) (w : World) :
  let req := {| req_url := PyStr.rstrip "/" url ++ "/api/v2/authenticate";
                req_headers := [];
                req_json := Credentials id secret |} in
  XrayResultImporter_init url id secret w =
  ([EvPost req],
   match http_post w req with
   | None => inl ConnectionError
   | Some r =>
       if ok r
       then inr {| base_url := PyStr.rstrip "/" url; client_id := id;
                   client_secret := secret;
                   token := PyStr.strip quote (text r) |}
       else inl (HTTPError (status_code r))
   end).
Proof.
  cbv zeta.
  unfold XrayResultImporter_init, authenticate, bind, requests_post,
    raise_for_status.
  destruct (http_post w _) as [r|]; [|reflexivity].
  destruct (ok r); reflexivity.
Qed.

(** The upload: one import request; on an error status the response text
    is printed before the error is raised. *)
Lemma import_results_run (self : XrayResultImporter) (payload : Execution)
    (w : World) :
  let req := {| req_url := base_url self ++ "/api/v2/import/execution";
                req_headers := headers self;
                req_json := ExecutionPayload payload |} in
  import_results self payload w =
  match http_post w req with
  | None => ([EvPost req], inl ConnectionError)
  | Some r =>
      if ok r then
        ([EvPost req],
         match resp_json r with
         | Some body => inr body
         | None => inl JSONDecodeError
         end)
      else ([EvPost req; EvPrint (UploadFailed (text r))],
            inl (HTTPError (status_code r)))
  end.
Proof.
  cbv zeta.
  unfold import_results, bind, requests_post, raise_for_status, print, json.
  destruct (http_post w _) as [r|]; [|reflexivity].
  destruct (ok r); cbn [negb]; [|reflexivity].
  unfold ret at 1. cbv beta iota.
  destruct (resp_json r); reflexivity.
Qed.

(** What the entry point does in every world, step by step. *)
Lemma main_run (args : Args) (w : World) :
  main args w =
  if negb (PyStr.truthy (arg_client_id args))
     || negb (PyStr.truthy (arg_client_secret args))
  then ([], inl (SystemExit 2))
  else
    match http_post w (auth_request args) with
    | None => ([EvPost (auth_request args)], inl ConnectionError)
    | Some r =>
        if ok r then
          match outcome (convert_magicpod_to_xray (arg_magicpod_json args)
                           (arg_summary args) w) with
          | inl e => ([EvPost (auth_request args);
                       EvOpen (arg_magicpod_json args)], inl e)
          | inr payload =>
              let ireq := import_request args (token_of r) payload in
              let before := [EvPost (auth_request args);
                             EvOpen (arg_magicpod_json args);
                             EvPrint PayloadBanner; EvPrint (Dump payload);
                             EvPost ireq] in
              match http_post w ireq with
              | None => (before, inl ConnectionError)
              | Some r2 =>
                  if ok r2 then
                    match resp_json r2 with
                    | Some body =>
                        ((before ++ [EvPrint UploadSuccessful;
                                     EvPrint (DumpResponse body)])%list,
                         inr tt)
                    | None => (before, inl JSONDecodeError)
                    end
                  else ((before ++ [EvPrint (UploadFailed (text r2))])%list,
                        inl (HTTPError (status_code r2)))
              end
          end
        else ([EvPost (auth_request args)], inl (HTTPError (status_code r)))
    end.
Proof.
  unfold main. rewrite bind_run. unfold check_credentials at 1.
  destruct (negb (PyStr.truthy (arg_client_id args))
            || negb (PyStr.truthy (arg_client_secret args))) eqn:Hcred;
    [reflexivity|].
  unfold ret at 1. cbv beta iota.
  rewrite bind_run, init_run. cbv zeta. fold (auth_request args).
  unfold trace, outcome.
  destruct (http_post w (auth_request args)) as [r|]; [|reflexivity].
  destruct (ok r); [|reflexivity].
  rewrite bind_run, convert_run. cbn [fst snd].
  match goal with
  | |- context [match ?c with
                | Missing => _ | Unreadable => _ | Malformed => _
                | Holds _ => _ end] =>
      destruct c as [| | |mp]
  end; try reflexivity.
  destruct (PyStr.truthy (arg_summary args)); [reflexivity|].
  destruct (mp_url mp) as [u|]; [|reflexivity].
  rewrite !bind_run. unfold print. cbn [fst snd].
  rewrite import_results_run. cbv zeta. cbn [base_url token headers].
  fold (token_of r).
  fold (import_request args (token_of r)
          {| info := default_info u;
             tests := map test_entry (result_records mp) |}).
  destruct (http_post w _) as [r2|]; [|reflexivity].
  destruct (ok r2); [|reflexivity].
  destruct (resp_json r2) as [body|]; [|reflexivity].
  rewrite !bind_run. cbn [fst snd]. unfold check_credentials.
  rewrite Hcred. reflexivity.
Qed.

(** X1: when the client id or the client secret is missing or empty, the
    run ends with exit status 2 before any request is sent and before the
    report file is opened. *)
Theorem missing_credentials_exit (args : Args) (w : World) :
  PyStr.truthy (arg_client_id args) = false \/
  PyStr.truthy (arg_client_secret args) = false ->
  main args w = ([], inl (SystemExit 2)).
Proof.
  intros H. rewrite main_run.
  destruct H as [-> | ->]; [|rewrite orb_true_r]; reflexivity.
Qed.

Lemma missing_credentials_exit_witness :
  main {| arg_base_url := "https://xray.cloud.getxray.app";
          arg_client_id := Some "id";
          arg_client_secret := Some "";
          arg_magicpod_json := "magicpod_result";
          arg_summary := None |}
       (sample_world (Holds sample_report) 0)
  = ([], inl (SystemExit 2)).
Proof.
  apply missing_credentials_exit. right. reflexivity.
Defined.



(** X3: whatever is uploaded is the conversion of the report file: an
    import request occurs in a run only when authentication succeeded, the
    file holds a report with a url and no summary was supplied, and it
    carries the document converted from that report, under the token of
    the authentication response. *)
Theorem uploads_only_the_conversion (args : Args) (w : World)
    (req : Request) :
  In (EvPost req) (trace (main args w)) ->
  is_import_request (EvPost req) = true ->
  exists r mp u,
    http_post w (auth_request args) = Some r /\ ok r = true /\
    fs w (arg_magicpod_json args) = Holds mp /\ mp_url mp = Some u /\
    PyStr.truthy (arg_summary args) = false /\
    req = import_request args (token_of r) (conversion mp u).
Proof.
  intros Hin Himp.
  assert (Hauth : EvPost (auth_request args) = EvPost req -> False).
  { intros E. injection E as <-. discriminate Himp. }
  rewrite main_run, convert_run in Hin. unfold outcome, trace in Hin.
  cbn [fst snd] in Hin. cbv zeta in Hin.
  destruct (negb (PyStr.truthy (arg_client_id args))
            || negb (PyStr.truthy (arg_client_secret args)));
    [destruct Hin|].
  destruct (http_post w (auth_request args)) as [r|];
    [|destruct Hin as [E | []]; destruct (Hauth E)].
  destruct (ok r) eqn:Hok;
    [|destruct Hin as [E | []]; destruct (Hauth E)].
  destruct (fs w (arg_magicpod_json args)) as [| | |mp];
    try (destruct Hin as [E | [E | []]];
         [destruct (Hauth E) | discriminate E]).
  destruct (PyStr.truthy (arg_summary args));
    [destruct Hin as [E | [E | []]]; [destruct (Hauth E) | discriminate E]|].
  destruct (mp_url mp) as [u|] eqn:Hurl;
    [|destruct Hin as [E | [E | []]]; [destruct (Hauth E) | discriminate E]].
  exists r, mp, u.
  do 5 (split; [first [reflexivity | assumption]|]).
  fold (conversion mp u) in Hin.
  assert (Hlast : forall tail,
             (forall ev, In ev tail -> is_network_call ev = false) ->
             In (EvPost req)
                ([EvPost (auth_request args); EvOpen (arg_magicpod_json args);
                  EvPrint PayloadBanner; EvPrint (Dump (conversion mp u));
                  EvPost (import_request args (token_of r) (conversion mp u))]
                 ++ tail)%list ->
             req = import_request args (token_of r) (conversion mp u)).
  { intros tail Htail H. cbn [app] in H.
    destruct H as [E | [E | [E | [E | [E | H]]]]];
      try discriminate E.
    - destruct (Hauth E).
    - injection E as <-. reflexivity.
    - apply Htail in H. discriminate H. }
  destruct (http_post w (import_request args (token_of r) (conversion mp u)))
    as [r2|].
  - destruct (ok r2).
    + destruct (resp_json r2) as [body|]; cbn [fst] in Hin.
      * eapply Hlast; [|exact Hin].
        intros ev [<- | [<- | []]]; reflexivity.
      * apply (Hlast []); [intros ev [] | exact Hin].
    + cbn [fst] in Hin. eapply Hlast; [|exact Hin].
      intros ev [<- | []]; reflexivity.
  - cbn [fst] in Hin. apply (Hlast []); [intros ev [] | exact Hin].
Qed.

Lemma uploads_only_the_conversion_witness :
  exists r mp u,
    http_post (sample_world (Holds sample_report) 0)
              (auth_request (sample_args None)) = Some r /\
    ok r = true /\
    fs (sample_world (Holds sample_report) 0)
       (arg_magicpod_json (sample_args None)) = Holds mp /\
    mp_url mp = Some u /\
    PyStr.truthy (arg_summary (sample_args None)) = false /\
    import_request (sample_args None) "tok" sample_execution
    = import_request (sample_args None) (token_of r) (conversion mp u).
Proof.
  apply (uploads_only_the_conversion (sample_args None)
           (sample_world (Holds sample_report) 0)
           (import_request (sample_args None) "tok" sample_execution)).
  - cbn. auto 10.
  - reflexivity.
Defined.

(** X4: when the import request is answered with an error status, the
    response text is printed and the run then ends with the HTTP error; it
    is the last event of the run, and the success lines are not printed. *)
Theorem rejected_import_prints_body (args : Args) (w : World)
    (r r2 : Response) (mp : Report) (u : string) :
  PyStr.truthy (arg_client_id args) = true ->
  PyStr.truthy (arg_client_secret args) = true ->
  http_post w (auth_request args) = Some r -> ok r = true ->
  fs w (arg_magicpod_json args) = Holds mp -> mp_url mp = Some u ->
  PyStr.truthy (arg_summary args) = false ->
  http_post w (import_request args (token_of r) (conversion mp u)) = Some r2 ->
  ok r2 = false ->
  outcome (main args w) = inl (HTTPError (status_code r2)) /\
  trace (main args w) =
    [EvPost (auth_request args); EvOpen (arg_magicpod_json args);
     EvPrint PayloadBanner; EvPrint (Dump (conversion mp u));
     EvPost (import_request args (token_of r) (conversion mp u));
     EvPrint (UploadFailed (text r2))].
Proof.
  intros Hid Hsec Hauth Hok Hfs Hurl Hsum Himp Hok2.
  rewrite main_run, convert_run, Hid, Hsec, Hauth, Hok, Hfs, Hsum, Hurl.
  unfold outcome, trace. cbn [negb orb fst snd]. cbv zeta.
  fold (conversion mp u). rewrite Himp, Hok2. split; reflexivity.
Qed.

Lemma rejected_import_prints_body_witness :
  outcome (main (sample_args None)
                (sample_world_with (Holds sample_report) reject_import))
  = inl (HTTPError 400) /\
  last (trace (main (sample_args None)
                    (sample_world_with (Holds sample_report) reject_import)))
       (EvOpen "")
  = EvPrint (UploadFailed "bad payload").
Proof.
  destruct (rejected_import_prints_body (sample_args None)
              (sample_world_with (Holds sample_report) reject_import)
              {| status_code := 200; text := quote ++ "tok" ++ quote;
                 resp_json := Some "tok" |}
              {| status_code := 400; text := "bad payload";
                 resp_json := None |}
              sample_report "https://app.magicpod.com/run/7"
              eq_refl eq_refl eq_refl eq_refl eq_refl eq_refl eq_refl
              eq_refl eq_refl) as [Hout Htr].
  split; [exact Hout|]. rewrite Htr. reflexivity.
Defined.

(** X5: a run ends without error exactly when both credentials are given,
    the authentication request is answered without an error status, the
    report file holds a report with a url, no summary is supplied, and the
    import request is answered without an error status by a JSON body. *)
Theorem run_succeeds_iff (args : Args) (w : World) :
  outcome (main args w) = inr tt <->
  PyStr.truthy (arg_client_id args) = true /\
  PyStr.truthy (arg_client_secret args) = true /\
  exists r mp u r2 body,
    http_post w (auth_request args) = Some r /\ ok r = true /\
    fs w (arg_magicpod_json args) = Holds mp /\ mp_url mp = Some u /\
    PyStr.truthy (arg_summary args) = false /\
    http_post w (import_request args (token_of r) (conversion mp u))
    = Some r2 /\
    ok r2 = true /\ resp_json r2 = Some body.
Proof.
  rewrite main_run, convert_run. unfold outcome. cbn [fst snd]. cbv zeta.
  split.
  - destruct (PyStr.truthy (arg_client_id args)); [|discriminate].
    destruct (PyStr.truthy (arg_client_secret args)); [|discriminate].
    cbn [negb orb].
    destruct (http_post w (auth_request args)) as [r|]; [|discriminate].
    destruct (ok r) eqn:Hok; [|discriminate].
    destruct (fs w (arg_magicpod_json args)) as [| | |mp]; try discriminate.
    destruct (PyStr.truthy (arg_summary args)); [discriminate|].
    destruct (mp_url mp) as [u|] eqn:Hurl; [|discriminate].
    fold (conversion mp u).
    destruct (http_post w (import_request args (token_of r) (conversion mp u)))
      as [r2|] eqn:Himp; [|discriminate].
    destruct (ok r2) eqn:Hok2; [|discriminate].
    destruct (resp_json r2) as [body|] eqn:Hbody; [|discriminate].
    intros _. do 2 (split; [reflexivity|]).
    exists r, mp, u, r2, body. auto 10.
  - intros (-> & -> & r & mp & u & r2 & body
            & -> & -> & -> & Hurl & -> & Himp & Hok2 & Hbody).
    cbn [negb orb]. rewrite Hurl. fold (conversion mp u).
    rewrite Himp, Hok2, Hbody. reflexivity.
Qed.

Lemma run_succeeds_iff_witness :
  outcome (main (sample_args None) (sample_world (Holds sample_report) 0))
  = inr tt /\
  outcome (main (sample_args None)
                (sample_world_with (Holds sample_report) reject_import))
  <> inr tt.
Proof.
  split.
  - apply (run_succeeds_iff (sample_args None)
             (sample_world (Holds sample_report) 0)).
    do 2 (split; [reflexivity|]).
    exists {| status_code := 200; text := "tok"; resp_json := Some "{}" |},
           sample_report, "https://app.magicpod.com/run/7",
           {| status_code := 200; text := "tok"; resp_json := Some "{}" |},
           "{}".
    repeat split.
  - intros H.
    apply (run_succeeds_iff (sample_args None)
             (sample_world_with (Holds sample_report) reject_import)) in H.
    destruct H as (_ & _ & r & mp & u & r2 & body
                   & Hr & _ & Hmp & Hu & _ & Hr2 & Hok2 & _).
    cbn in Hr, Hmp, Hr2. injection Hr2 as <-. discriminate Hok2.
Defined.

(** X6: a run started with a non-empty summary never uploads anything and
    never ends without error: when it gets as far as a loaded report, it
    ends with [UnboundLocalError]. *)
Theorem summary_option_never_uploads (args : Args) (w : World) :
  PyStr.truthy (arg_summary args) = true ->
  existsb is_import_request (trace (main args w)) = false /\
  (exists e, outcome (main args w) = inl e) /\
  (forall mp, In (EvOpen (arg_magicpod_json args)) (trace (main args w)) ->
              fs w (arg_magicpod_json args) = Holds mp ->
              outcome (main args w) = inl (UnboundLocalError "description")).
Proof.
  intros Hsum. rewrite main_run, convert_run, Hsum.
  unfold outcome, trace.
  destruct (negb (PyStr.truthy (arg_client_id args))
            || negb (PyStr.truthy (arg_client_secret args))).
  { cbn [fst snd]. split; [reflexivity|]. split; [eauto|]. intros mp []. }
  destruct (http_post w (auth_request args)) as [r|].
  2:{ cbn [fst snd]. split; [reflexivity|]. split; [eauto|].
      intros mp [E | []]. discriminate E. }
  destruct (ok r).
  2:{ cbn [fst snd]. split; [reflexivity|]. split; [eauto|].
      intros mp [E | []]. discriminate E. }
  cbn [fst snd].
  destruct (fs w (arg_magicpod_json args)) as [| | |mp];
    cbn [fst snd];
    (split; [reflexivity|]; split; [eauto|]);
    intros mp' _ E; try discriminate E; reflexivity.
Qed.

Lemma summary_option_never_uploads_witness :
  existsb is_import_request
    (trace (main (sample_args (Some "Nightly run"))
                 (sample_world (Holds sample_report) 0))) = false /\
  outcome (main (sample_args (Some "Nightly run"))
                (sample_world (Holds sample_report) 0))
  = inl (UnboundLocalError "description").
Proof.
  destruct (summary_option_never_uploads (sample_args (Some "Nightly run"))
              (sample_world (Holds sample_report) 0) eq_refl)
    as (H1 & _ & H3).
  split; [exact H1|].
  apply (H3 sample_report); [cbn; auto | reflexivity].
Defined.

(** X7: a run makes at most two network calls: none; the authentication
    request alone; or the authentication request followed by one import
    request to the same service. *)
Theorem network_calls_of_a_run (args : Args) (w : World) :
  let calls := filter is_network_call (trace (main args w)) in
  calls = [] \/
  calls = [EvPost (auth_request args)] \/
  exists token payload,
    calls = [EvPost (auth_request args);
             EvPost (import_request args token payload)].
Proof.
  cbv zeta. rewrite main_run, convert_run. unfold outcome, trace.
  cbn [fst snd]. cbv zeta.
  destruct (negb (PyStr.truthy (arg_client_id args))
            || negb (PyStr.truthy (arg_client_secret args))); [left; reflexivity|].
  destruct (http_post w (auth_request args)) as [r|];
    [|right; left; reflexivity].
  destruct (ok r); [|right; left; reflexivity].
  destruct (fs w (arg_magicpod_json args)) as [| | |mp];
    try (right; left; reflexivity).
  destruct (PyStr.truthy (arg_summary args)); [right; left; reflexivity|].
  destruct (mp_url mp) as [u|]; [|right; left; reflexivity].
  right. right. exists (token_of r), (conversion mp u).
  fold (conversion mp u).
  destruct (http_post w (import_request args (token_of r) (conversion mp u)))
    as [r2|]; [|reflexivity].
  destruct (ok r2); [|reflexivity].
  destruct (resp_json r2); reflexivity.
Qed.

(** ** Stripping, exactly *)

Lemma rstrip_all_in (chars r : string) :
  all_in chars r = true -> PyStr.rstrip chars r = "".
Proof.
  induction r as [|a r IH]; simpl; [reflexivity|].
  intros H. apply andb_true_iff in H as [Ha Hr].
  rewrite (IH Hr), Ha. reflexivity.
Qed.

Lemma rstrip_app_all_in (chars s r : string) :
  all_in chars r = true ->
  PyStr.rstrip chars (s ++ r) = PyStr.rstrip chars s.
Proof.
  intros Hr. induction s as [|a s IH]; simpl.
  - apply rstrip_all_in. exact Hr.
  - rewrite IH. reflexivity.
Qed.

Lemma rstrip_no_end (chars t : string) :
  ends_in chars t = false -> PyStr.rstrip chars t = t.
Proof.
  induction t as [|a t IH]; [reflexivity|].
  intros H. destruct t as [|b t'].
  - simpl in *. rewrite H. reflexivity.
  - change (ends_in chars (String b t') = false) in H.
    change (PyStr.rstrip chars (String a (String b t')))
      with (match PyStr.rstrip chars (String b t') with
            | EmptyString => if PyStr.mem a chars then EmptyString
                             else String a EmptyString
            | String c u => String a (String c u)
            end).
    rewrite (IH H). reflexivity.
Qed.

Lemma rstrip_app_kept (chars l t : string) (b : ascii) (t' : string) :
  PyStr.rstrip chars t = String b t' ->
  PyStr.rstrip chars (l ++ t) = l ++ String b t'.
Proof.
  intros Ht. induction l as [|a l IH]; simpl; [exact Ht|].
  rewrite IH. destruct l; reflexivity.
Qed.

Lemma lstrip_app_all_in (chars l t : string) :
  all_in chars l = true ->
  PyStr.lstrip chars (l ++ t) = PyStr.lstrip chars t.
Proof.
  induction l as [|a l IH]; simpl; [reflexivity|].
  intros H. apply andb_true_iff in H as [Ha Hl].
  rewrite Ha. exact (IH Hl).
Qed.

Lemma lstrip_no_start (chars t : string) :
  starts_in chars t = false -> PyStr.lstrip chars t = t.
Proof.
  destruct t as [|a t]; simpl; [reflexivity|].
  intros ->. reflexivity.
Qed.

(** [strip] undoes any wrapping in characters of the set: a text that
    neither starts nor ends with one is recovered from its wrapped form. *)
Lemma strip_exact (chars l t r : string) :
  all_in chars l = true -> all_in chars r = true ->
  starts_in chars t = false -> ends_in chars t = false ->
  PyStr.strip chars (l ++ t ++ r) = t.
Proof.
  intros Hl Hr Hs He. unfold PyStr.strip.
  rewrite <- append_assoc, (rstrip_app_all_in chars (l ++ t) r Hr).
  destruct t as [|b t'].
  - rewrite (rstrip_app_all_in chars l "" eq_refl).
    rewrite (rstrip_all_in chars l Hl). reflexivity.
  - pose proof (rstrip_no_end chars (String b t') He) as Ht.
    rewrite (rstrip_app_kept chars l (String b t') b t' Ht).
    rewrite (lstrip_app_all_in chars l (String b t') Hl).
    apply lstrip_no_start. exact Hs.
Qed.

(** ** The uploader *)

(** X8: the token kept by [authenticate] never starts or ends with a double
    quote, and when the service answers with a quoted string, the token is
    the text between the quotes. *)
Theorem authenticate_unquotes_token (url id secret : string) (w : World)
    (r : Response) :
  http_post w {| req_url := url ++ "/api/v2/authenticate";
                 req_headers := [];
                 req_json := Credentials id secret |} = Some r ->
  ok r = true ->
  exists tok,
    outcome (authenticate url id secret w) = inr tok /\
    starts_in quote tok = false /\ ends_in quote tok = false /\
    forall t, text r = quote ++ t ++ quote ->
              starts_in quote t = false -> ends_in quote t = false ->
              tok = t.
Proof.
  intros Hpost Hok.
  exists (PyStr.strip quote (text r)). split; [|split; [|split]].
  - unfold authenticate, bind, requests_post, raise_for_status, outcome.
    rewrite Hpost, Hok. reflexivity.
  - destruct (strip_decompose quote (text r)) as (l & r' & _ & _ & _ & H & _).
    exact H.
  - destruct (strip_decompose quote (text r)) as (l & r' & _ & _ & _ & _ & H).
    exact H.
  - intros t Ht Hs He. rewrite Ht.
    apply strip_exact; auto.
Qed.

Lemma authenticate_unquotes_token_witness :
  exists tok,
    outcome (authenticate "https://xray.cloud.getxray.app" "id" "secret"
               (sample_world_with Missing reject_import)) = inr tok /\
    tok = "tok".
Proof.
  destruct (authenticate_unquotes_token "https://xray.cloud.getxray.app"
              "id" "secret" (sample_world_with Missing reject_import)
              {| status_code := 200; text := quote ++ "tok" ++ quote;
                 resp_json := Some "tok" |} eq_refl eq_refl)
    as (tok & Hout & _ & _ & Ht).
  exists tok. split; [exact Hout|].
  apply Ht; reflexivity.
Defined.

Lemma init_slashes (url slashes id secret : string) :
  all_in "/" slashes = true ->
  XrayResultImporter_init (url ++ slashes) id secret
  = XrayResultImporter_init url id secret.
Proof.
  intros H. unfold XrayResultImporter_init.
  rewrite (rstrip_app_all_in "/" url slashes H). reflexivity.
Qed.

(** X9: slashes at the end of the base URL make no difference: the run with
    base URL [url] followed by any number of "/" is, event for event and in
    its outcome, the run with base URL [url]. *)
Theorem trailing_slashes_ignored (url slashes : string)
    (id secret summary : option string) (file : string) (w : World) :
  all_in "/" slashes = true ->
  main {| arg_base_url := url ++ slashes; arg_client_id := id;
          arg_client_secret := secret; arg_magicpod_json := file;
          arg_summary := summary |} w
  = main {| arg_base_url := url; arg_client_id := id;
            arg_client_secret := secret; arg_magicpod_json := file;
            arg_summary := summary |} w.
Proof.
  intros H. unfold main. cbn [arg_base_url arg_client_id arg_client_secret
                             arg_magicpod_json arg_summary].
  rewrite (init_slashes url slashes _ _ H). reflexivity.
Qed.

Lemma trailing_slashes_ignored_witness :
  trace (main {| arg_base_url := "https://xray.cloud.getxray.app" ++ "//";
                 arg_client_id := Some "id";
                 arg_client_secret := Some "secret";
                 arg_magicpod_json := "magicpod_result";
                 arg_summary := None |}
              (sample_world Missing 0))
  = [EvPost {| req_url := "https://xray.cloud.getxray.app/api/v2/authenticate";
               req_headers := [];
               req_json := Credentials "id" "secret" |};
     EvOpen "magicpod_result"].
Proof.
  rewrite (trailing_slashes_ignored "https://xray.cloud.getxray.app" "//"
             (Some "id") (Some "secret") None "magicpod_result"
             (sample_world Missing 0) eq_refl).
  reflexivity.
Defined.

(** ** The status mapper, further *)

Lemma lower_char_idempotent (c : ascii) :
  PyStr.lower_char (PyStr.lower_char c) = PyStr.lower_char c.
Proof.
  destruct c as [[] [] [] [] [] [] [] []]; reflexivity.
Qed.

Lemma lower_idempotent (s : string) :
  PyStr.lower (PyStr.lower s) = PyStr.lower s.
Proof.
  induction s as [|a t IH]; simpl; [reflexivity|].
  rewrite lower_char_idempotent, IH. reflexivity.
Qed.




(** X10: the mapping ignores the casing of the status: two statuses with
    the same lower-casing get the same result, and a status gets the result
    of its own lower-casing. *)
Theorem map_status_ignores_case (s1 s2 : string) :
  PyStr.lower s1 = PyStr.lower s2 ->
  map_status (Some s1) = map_status (Some s2) /\
  map_status (Some (PyStr.lower s1)) = map_status (Some s1).
Proof.
  intros H. unfold map_status.
  rewrite !or_else_some, lower_idempotent, H. split; reflexivity.
Qed.

Lemma map_status_ignores_case_witness :
  map_status (Some "FaIlEd") = map_status (Some "FAILED").
Proof.
  apply (map_status_ignores_case "FaIlEd" "FAILED"). reflexivity.
Defined.



(** ** The extracted key, further *)

Lemma startswith_app (k r : string) : PyStr.startswith k (k ++ r) = true.
Proof.
  induction k as [|a k IH]; simpl; [reflexivity|].
  rewrite Ascii.eqb_refl, IH. reflexivity.
Qed.

Lemma contains_inside (p k r : string) :
  PyStr.contains k (p ++ k ++ r) = true.
Proof.
  induction p as [|a p IH].
  - simpl append. destruct (k ++ r) eqn:E; simpl; rewrite <- E;
      rewrite startswith_app; reflexivity.
  - simpl. rewrite IH. apply orb_true_r.
Qed.

(** X12: a key that is extracted is a contiguous part of the test name that
    comes after a "[", contains a "-", contains no "[", and neither starts
    nor ends with "]". *)
Theorem test_key_shape (name k : string) :
  test_key name = Some k ->
  (exists before after, name = before ++ "[" ++ after /\
                        PyStr.contains k after = true) /\
  PyStr.contains k name = true /\
  PyStr.contains "-" k = true /\
  PyStr.contains "[" k = false /\
  starts_in "]" k = false /\ ends_in "]" k = false.
Proof.
  unfold test_key.
  destruct (PyStr.contains "[" name) eqn:Hopen; [|discriminate].
  destruct (PyStr.contains "]" name); [|discriminate]. cbn [andb].
  destruct (PyStr.contains "-" (candidate name)) eqn:Hhy; [|discriminate].
  intros E. injection E as <-.
  rewrite contains_char in Hopen.
  destruct (after_last_decompose "[" name Hopen) as [pre Hpre].
  rewrite candidate_after_last in *.
  destruct (strip_decompose "]" (after_last "[" name))
    as (l & r & Hdec & _ & _ & Hs & He).
  assert (Hin : PyStr.contains (PyStr.strip "]" (after_last "[" name))
                  (after_last "[" name) = true).
  { rewrite Hdec at 2. apply contains_inside. }
  split; [|split; [|split; [|split; [|split]]]].
  - exists pre, (after_last "[" name). split; [exact Hpre | exact Hin].
  - rewrite Hpre at 2. rewrite Hdec at 2.
    change (String "[" (l ++ PyStr.strip "]" (after_last "[" name) ++ r))
      with ((String "[" l) ++ PyStr.strip "]" (after_last "[" name) ++ r).
    rewrite <- append_assoc. apply contains_inside.
  - exact Hhy.
  - rewrite contains_char, mem_strip by reflexivity.
    apply after_last_no_sep.
  - exact Hs.
  - exact He.
Qed.

Lemma test_key_shape_witness :
  PyStr.contains "PROJ-5" "Test [x] [PROJ-5]" = true /\
  PyStr.contains "[" "PROJ-5" = false.
Proof.
  destruct (test_key_shape "Test [x] [PROJ-5]" "PROJ-5" eq_refl)
    as (_ & H1 & _ & H2 & _).
  split; [exact H1 | exact H2].
Defined.

(** ** The converter, further *)

(** X13: in every converted document each entry has a status among PASSED,
    FAILED and TODO, and its comment is the fixed prefix followed by the
    name of the test of its result record. *)
Theorem entries_status_and_comment (mp_file : string)
    (override : option string) (w : World) (doc : Execution) :
  outcome (convert_magicpod_to_xray mp_file override w) = inr doc ->
  exists mp,
    fs w mp_file = Holds mp /\
    Forall2
      (fun result entry =>
         In (status entry) ["PASSED"; "FAILED"; "TODO"] /\
         status entry = map_status (Some (get (r_status result) "")) /\
         comment entry
         = "Imported from MagicPod. Original test: " ++ test_name result)
      (result_records mp) (tests doc).
Proof.
  rewrite convert_run. unfold outcome. simpl.
  destruct (fs w mp_file) as [| | |mp]; try discriminate.
  destruct (PyStr.truthy override); [discriminate|].
  destruct (mp_url mp) as [u|]; [|discriminate].
  intros E. injection E as <-. exists mp. split; [reflexivity|]. simpl.
  induction (result_records mp) as [|r rs IH]; simpl; constructor;
    [|exact IH].
  assert (Hst : status (test_entry r)
                = map_status (Some (get (r_status r) ""))).
  { unfold test_entry.
    destruct (test_key (test_name r)) as [[|a k]|]; reflexivity. }
  split; [rewrite Hst; apply map_status_total|].
  split; [exact Hst|].
  unfold test_entry.
  destruct (test_key (test_name r)) as [[|a k]|]; reflexivity.
Qed.

Lemma entries_status_and_comment_witness :
  exists mp,
    fs (sample_world (Holds sample_report) 0) "magicpod_result" = Holds mp /\
    Forall2
      (fun result entry =>
         In (status entry) ["PASSED"; "FAILED"; "TODO"] /\
         status entry = map_status (Some (get (r_status result) "")) /\
         comment entry
         = "Imported from MagicPod. Original test: " ++ test_name result)
      (result_records mp) (tests sample_execution).
Proof.
  exact (entries_status_and_comment "magicpod_result" None
           (sample_world (Holds sample_report) 0) sample_execution eq_refl).
Defined.

(** X14: whatever the summary and the outcome, the converter opens the
    report file once and does nothing else: it sends no request, and its
    result is the same in two worlds that hold the same file content. *)
Theorem converter_only_reads_the_file (mp_file : string)
    (override : option string) (w1 w2 : World) :
  fs w1 mp_file = fs w2 mp_file ->
  trace (convert_magicpod_to_xray mp_file override w1) = [EvOpen mp_file] /\
  existsb is_network_call
    (trace (convert_magicpod_to_xray mp_file override w1)) = false /\
  convert_magicpod_to_xray mp_file override w1
  = convert_magicpod_to_xray mp_file override w2.
Proof.
  intros H. rewrite !convert_run, H. repeat split.
Qed.

Lemma converter_only_reads_the_file_witness :
  convert_magicpod_to_xray "magicpod_result" (Some "Nightly run")
    (sample_world Malformed 0)
  = convert_magicpod_to_xray "magicpod_result" (Some "Nightly run")
      (sample_world_with Malformed (reject_all 500)).
Proof.
  apply (converter_only_reads_the_file "magicpod_result" (Some "Nightly run")
           (sample_world Malformed 0)
           (sample_world_with Malformed (reject_all 500))).
  reflexivity.
Defined.

(** X15: the loop over the detail groups is compositional: running it on
    the groups [ds1] followed by [ds2] appends to the entries of [ds1] the
    entries of [ds2], and entries already in the list are kept in front. *)
Theorem convert_details_app (u : option string) (ds1 ds2 : list Detail)
    (tests0 : list TestEntry) :
  let report ds := {| mp_url := u;
                      mp_test_cases := Some {| tcs_details := Some ds |} |} in
  convert_details (report (ds1 ++ ds2)%list) tests0
  = convert_details (report ds2) (convert_details (report ds1) tests0) /\
  convert_details (report (ds1 ++ ds2)%list) tests0
  = (tests0 ++ convert_details (report ds1) []
            ++ convert_details (report ds2) [])%list.
Proof.
  cbv zeta. rewrite !convert_details_map.
  unfold result_records, details_of. cbn [mp_test_cases tcs_details].
  rewrite flat_map_app, map_app, !app_nil_l, <- app_assoc.
  split; reflexivity.
Qed.

(** * The test-plan script *)

(** ** Base64 *)

Ltac euclid := intros; zify; Z.to_euclidean_division_equations; lia.

Lemma below_64 (P : N -> Prop) :
  (forall k : nat, (k < 64)%nat -> P (N.of_nat k)) ->
  forall n, (n < 64)%N -> P n.
Proof.
  intros H n Hn. rewrite <- (N2Nat.id n). apply H. lia.
Qed.

(** The characters of the alphabet are distinct and none is the padding
    character. *)
Lemma b64_index_char (n : N) :
  (n < 64)%N ->
  Jira.b64_index (Jira.b64_char n) = Some n /\
  Ascii.eqb (Jira.b64_char n) Jira.pad = false.
Proof.
  revert n. apply below_64. intros k Hk.
  do 64 (destruct k as [|k]; [split; reflexivity|]). lia.
Qed.

Lemma b64decode_group (c1 c2 c3 c4 : ascii) (t : string) :
  Jira.b64decode (String c1 (String c2 (String c3 (String c4 t)))) =
  match Jira.b64_index c1, Jira.b64_index c2 with
  | Some s1, Some s2 =>
      let a := ascii_of_N (s1 * 4 + s2 / 16) in
      if Ascii.eqb c3 Jira.pad then
        if Ascii.eqb c4 Jira.pad && Jira.is_empty t
        then Some (String a EmptyString)
        else None
      else
        match Jira.b64_index c3 with
        | Some s3 =>
            let b := ascii_of_N (s2 mod 16 * 16 + s3 / 4) in
            if Ascii.eqb c4 Jira.pad then
              if Jira.is_empty t
              then Some (String a (String b EmptyString))
              else None
            else
              match Jira.b64_index c4, Jira.b64decode t with
              | Some s4, Some rest =>
                  Some (String a
                          (String b
                             (String (ascii_of_N (s3 mod 4 * 64 + s4))
                                rest)))
              | _, _ => None
              end
        | None => None
        end
  | _, _ => None
  end%N.
Proof. reflexivity. Qed.

Lemma byte_of_N (a : ascii) (n : N) : n = N_of_ascii a -> ascii_of_N n = a.
Proof. intros ->. apply ascii_N_embedding. Qed.

(** Decoding undoes encoding. *)
Lemma b64decode_b64encode (s : string) :
  Jira.b64decode (Jira.b64encode s) = Some s.
Proof.
  assert (H : forall n s, (String.length s <= n)%nat ->
                          Jira.b64decode (Jira.b64encode s) = Some s).
  { clear s. induction n as [|n IH]; intros s Hlen.
    - destruct s; [reflexivity | simpl in Hlen; lia].
    - destruct s as [|a [|b [|c t]]]; [reflexivity| | |].
      + pose proof (N_ascii_bounded a) as Ha.
        cbn [Jira.b64encode]. cbv zeta. rewrite b64decode_group.
        destruct (b64_index_char (N_of_ascii a / 4)) as [-> _]; [euclid|].
        destruct (b64_index_char (N_of_ascii a mod 4 * 16)) as [-> _];
          [euclid|].
        cbv zeta. rewrite !Ascii.eqb_refl. cbn [Jira.is_empty andb].
        f_equal. f_equal. apply byte_of_N. euclid.
      + pose proof (N_ascii_bounded a) as Ha.
        pose proof (N_ascii_bounded b) as Hb.
        cbn [Jira.b64encode]. cbv zeta. rewrite b64decode_group.
        destruct (b64_index_char (N_of_ascii a / 4)) as [-> _]; [euclid|].
        destruct (b64_index_char
                    (N_of_ascii a mod 4 * 16 + N_of_ascii b / 16))
          as [-> _]; [euclid|].
        destruct (b64_index_char (N_of_ascii b mod 16 * 4)) as [-> ->];
          [euclid|].
        cbv zeta. rewrite Ascii.eqb_refl. cbn [Jira.is_empty].
        f_equal. f_equal; [|f_equal]; apply byte_of_N; euclid.
      + pose proof (N_ascii_bounded a) as Ha.
        pose proof (N_ascii_bounded b) as Hb.
        pose proof (N_ascii_bounded c) as Hc.
        cbn [Jira.b64encode]. cbv zeta. rewrite b64decode_group.
        destruct (b64_index_char (N_of_ascii a / 4)) as [-> _]; [euclid|].
        destruct (b64_index_char
                    (N_of_ascii a mod 4 * 16 + N_of_ascii b / 16))
          as [-> _]; [euclid|].
        destruct (b64_index_char
                    (N_of_ascii b mod 16 * 4 + N_of_ascii c / 64))
          as [-> ->]; [euclid|].
        destruct (b64_index_char (N_of_ascii c mod 64)) as [-> ->];
          [euclid|].
        rewrite IH by (simpl in Hlen; lia).
        cbv zeta.
        f_equal. f_equal; [|f_equal; [|f_equal]]; apply byte_of_N; euclid. }
  apply (H (String.length s)). lia.
Qed.

(** Every three bytes, complete or not, give four characters. *)
Lemma length_b64encode (s : string) :
  String.length (Jira.b64encode s) = (4 * ((String.length s + 2) / 3))%nat.
Proof.
  assert (H : forall n s, (String.length s <= n)%nat ->
                          String.length (Jira.b64encode s)
                          = (4 * ((String.length s + 2) / 3))%nat).
  { clear s. induction n as [|n IH]; intros s Hlen.
    - destruct s; [reflexivity | simpl in Hlen; lia].
    - destruct s as [|a [|b [|c t]]];
        [reflexivity | reflexivity | reflexivity |].
      cbn [Jira.b64encode]. cbv zeta. cbn [String.length].
      rewrite IH by (cbn [String.length] in Hlen; lia).
      replace (S (S (S (String.length t))) + 2)%nat
        with ((String.length t + 2) + 1 * 3)%nat by lia.
      rewrite Nat.div_add by lia. lia. }
  apply (H (String.length s)). lia.
Qed.

(** X16: the authorization value is "Basic " followed by the Base64
    encoding of "user:token": decoding what follows "Basic " gives the
    credentials back, and its length is four characters for every three
    bytes of credentials, the last group padded.  The wrapper sends it as
    its Authorization header. *)
Theorem basic_auth_round_trip (url user token : string) :
  exists encoded,
    Jira._basic_auth user token = "Basic " ++ encoded /\
    Jira.b64decode encoded = Some (user ++ ":" ++ token) /\
    String.length encoded
    = (4 * ((String.length (user ++ ":" ++ token) + 2) / 3))%nat /\
    Jira.headers (Jira.__init__ url user token)
    = [("Authorization", "Basic " ++ encoded);
       ("Content-Type", "application/json")].
Proof.
  exists (Jira.b64encode (user ++ ":" ++ token)).
  split; [reflexivity|].
  split; [apply b64decode_b64encode|].
  split; [apply length_b64encode | reflexivity].
Qed.

(** ** The default name of a test plan *)








(** ** The runs of [create_test_plan] and of the entry point *)

Lemma jira_bind_run {A B : Type} (m : Jira.M A) (k : A -> Jira.M B)
    (w : Jira.World) :
  Jira.bind m k w =
  match m w with
  | (tr, inl e) => (tr, inl e)
  | (tr, inr a) => ((tr ++ Jira.trace (k a w))%list, Jira.outcome (k a w))
  end.
Proof.
  unfold Jira.bind, Jira.trace, Jira.outcome.
  destruct (m w) as [tr [e|a]]; [reflexivity|].
  destruct (k a w); reflexivity.
Qed.

(** Every call of [create_test_plan]: the request, then the decoded answer,
    or the two failure lines and the HTTP error. *)
Lemma create_test_plan_run (self : Jira.JiraAPIWrapper) (project : string)
    (summary descr : option string) (w : Jira.World) :
  Jira.create_test_plan self project summary descr w =
  let req := Jira.plan_request self project summary descr w in
  match Jira.http_post w req with
  | None => ([Jira.EvPost req], inl ConnectionError)
  | Some r =>
      if ok r then
        ([Jira.EvPost req],
         match resp_json r with
         | Some body => inr body
         | None => inl JSONDecodeError
         end)
      else ([Jira.EvPost req; Jira.EvPrint Jira.CreateFailed;
             Jira.EvPrint (Jira.ResponseText (text r))],
            inl (HTTPError (status_code r)))
  end.
Proof.
  cbv zeta. unfold Jira.create_test_plan, Jira.plan_request.
  rewrite jira_bind_run.
  destruct (PyStr.truthy summary); cbn [negb];
    destruct (PyStr.truthy descr); cbn [negb];
    unfold Jira.bind, Jira.datetime_now, Jira.ret, Jira.requests_post,
      Jira.try_except, Jira.raise_for_status, Jira.print, Jira.json,
      Jira.trace, Jira.outcome;
    cbn [fst snd];
    (destruct (Jira.http_post w _) as [r|]; [|reflexivity]);
    (destruct (ok r); [|reflexivity]);
    unfold Jira.ret; destruct (resp_json r); reflexivity.
Qed.

Lemma jira_main_run (args : Jira.Args) (w : Jira.World) :
  Jira.main args w =
  if negb (PyStr.truthy (Jira.arg_jira_url args))
     || negb (PyStr.truthy (Jira.arg_jira_user args))
     || negb (PyStr.truthy (Jira.arg_jira_token args))
  then ([], inl (SystemExit 2))
  else
    let api := Jira.__init__ (get (Jira.arg_jira_url args) "")
                 (get (Jira.arg_jira_user args) "")
                 (get (Jira.arg_jira_token args) "") in
    let req := Jira.plan_request api (Jira.arg_project args)
                 (Jira.arg_summary args) (Jira.arg_description args) w in
    match Jira.http_post w req with
    | None => ([Jira.EvPost req], inl ConnectionError)
    | Some r =>
        if ok r then
          match resp_json r with
          | Some body =>
              ([Jira.EvPost req; Jira.EvPrint Jira.CreatedSuccessfully;
                Jira.EvPrint (Jira.DumpResult body)], inr tt)
          | None => ([Jira.EvPost req], inl JSONDecodeError)
          end
        else ([Jira.EvPost req; Jira.EvPrint Jira.CreateFailed;
               Jira.EvPrint (Jira.ResponseText (text r))],
              inl (HTTPError (status_code r)))
    end.
Proof.
  unfold Jira.main. rewrite jira_bind_run.
  destruct (negb (PyStr.truthy (Jira.arg_jira_url args))
            || negb (PyStr.truthy (Jira.arg_jira_user args))
            || negb (PyStr.truthy (Jira.arg_jira_token args)));
    [reflexivity|].
  unfold Jira.ret at 1. cbv beta iota zeta.
  rewrite jira_bind_run, create_test_plan_run. cbv zeta.
  unfold Jira.trace, Jira.outcome.
  destruct (Jira.http_post w _) as [r|]; [|reflexivity].
  destruct (ok r); [|reflexivity].
  destruct (resp_json r); reflexivity.
Qed.

(** X18: every call of [create_test_plan] sends exactly one request, before
    anything is printed, whatever the arguments and the answer.  The
    request asks for an issue of type "Test Plan" in the given project; a
    non-empty summary or description is passed on as given and an absent
    or empty one is replaced by its default, each independently of the
    other: the default summary is the formatted local time followed by
    " MagicPod Test Plan". *)
Theorem create_test_plan_request (self : Jira.JiraAPIWrapper)
    (project : string) (summary descr : option string) (w : Jira.World) :
  exists req prints,
    Jira.trace (Jira.create_test_plan self project summary descr w)
    = Jira.EvPost req :: prints /\
    (forall ev, In ev prints -> exists out, ev = Jira.EvPrint out) /\
    Jira.req_url req = Jira.jira_url self ++ "/rest/api/3/issue" /\
    Jira.req_headers req = Jira.headers self /\
    Jira.project_key (Jira.req_json req) = project /\
    Jira.issuetype_name (Jira.req_json req) = "Test Plan" /\
    Jira.fields_summary (Jira.req_json req)
    = (match summary with
       | Some (String a t) => String a t
       | _ => Jira.strftime (Jira.now w) ++ " MagicPod Test Plan"
       end) /\
    Jira.fields_description (Jira.req_json req)
    = (match descr with
       | Some (String a t) => String a t
       | _ => "Created automatically by script"
       end).
Proof.
  rewrite create_test_plan_run. cbv zeta.
  exists (Jira.plan_request self project summary descr w).
  assert (Hfields :
    Jira.fields_summary
      (Jira.req_json (Jira.plan_request self project summary descr w))
    = (match summary with
       | Some (String a t) => String a t
       | _ => Jira.strftime (Jira.now w) ++ " MagicPod Test Plan"
       end) /\
    Jira.fields_description
      (Jira.req_json (Jira.plan_request self project summary descr w))
    = (match descr with
       | Some (String a t) => String a t
       | _ => "Created automatically by script"
       end)).
  { destruct summary as [[|a t]|]; destruct descr as [[|b u]|];
      split; reflexivity. }
  destruct Hfields as [Hs Hd].
  destruct (Jira.http_post w _) as [r|].
  - destruct (ok r).
    + exists []. repeat split; try assumption. intros ev [].
    + eexists. split; [reflexivity|].
      repeat split; try assumption.
      intros ev [<- | [<- | []]]; eauto.
  - exists []. repeat split; try assumption. intros ev [].
Qed.

(** X19: when the issue tracker answers with an error status, the failure
    line and the response text are printed after the request, and the call
    ends with the HTTP error of that status. *)
Theorem create_test_plan_rejected (self : Jira.JiraAPIWrapper)
    (project : string) (summary descr : option string) (w : Jira.World)
    (r : Response) :
  Jira.http_post w (Jira.plan_request self project summary descr w)
  = Some r ->
  ok r = false ->
  Jira.create_test_plan self project summary descr w
  = ([Jira.EvPost (Jira.plan_request self project summary descr w);
      Jira.EvPrint Jira.CreateFailed;
      Jira.EvPrint (Jira.ResponseText (text r))],
     inl (HTTPError (status_code r))).
Proof.
  intros Hpost Hok. rewrite create_test_plan_run. cbv zeta.
  rewrite Hpost, Hok. reflexivity.
Qed.

Lemma create_test_plan_rejected_witness :
  Jira.outcome
    (Jira.create_test_plan
       (Jira.__init__ "https://example.atlassian.net" "me@example.com"
          "s3cret")
       "XSP" (Some "Plan A") None
       (Jira.sample_world (Some Jira.forbidden)))
  = inl (HTTPError 403).
Proof.
  rewrite (create_test_plan_rejected
             (Jira.__init__ "https://example.atlassian.net" "me@example.com"
                "s3cret")
             "XSP" (Some "Plan A") None
             (Jira.sample_world (Some Jira.forbidden))
             Jira.forbidden eq_refl eq_refl).
  reflexivity.
Defined.

(** X20: when the Jira URL, the user or the token is missing or empty, the
    test-plan script ends with exit status 2 and sends no request. *)
Theorem jira_missing_settings_exit (args : Jira.Args) (w : Jira.World) :
  PyStr.truthy (Jira.arg_jira_url args) = false \/
  PyStr.truthy (Jira.arg_jira_user args) = false \/
  PyStr.truthy (Jira.arg_jira_token args) = false ->
  Jira.main args w = ([], inl (SystemExit 2)).
Proof.
  intros H. rewrite jira_main_run.
  destruct H as [-> | [-> | ->]]; cbn [negb orb];
    rewrite ?orb_true_r; reflexivity.
Qed.

Lemma jira_missing_settings_exit_witness :
  Jira.main {| Jira.arg_jira_url := Some "https://example.atlassian.net";
               Jira.arg_jira_user := None;
               Jira.arg_jira_token := Some "s3cret";
               Jira.arg_project := "XSP";
               Jira.arg_summary := None;
               Jira.arg_description := None |}
            (Jira.sample_world (Some Jira.created))
  = ([], inl (SystemExit 2)).
Proof.
  apply jira_missing_settings_exit. right. left. reflexivity.
Defined.

(** X21: the test-plan script ends without error exactly when the three
    connection settings are given and its one request is answered without
    an error status by a JSON body; a summary or a description on the
    command line never makes it fail. *)
Theorem jira_run_succeeds_iff (args : Jira.Args) (w : Jira.World) :
  Jira.outcome (Jira.main args w) = inr tt <->
  PyStr.truthy (Jira.arg_jira_url args) = true /\
  PyStr.truthy (Jira.arg_jira_user args) = true /\
  PyStr.truthy (Jira.arg_jira_token args) = true /\
  exists r body,
    Jira.http_post w
      (Jira.plan_request
         (Jira.__init__ (get (Jira.arg_jira_url args) "")
            (get (Jira.arg_jira_user args) "")
            (get (Jira.arg_jira_token args) ""))
         (Jira.arg_project args) (Jira.arg_summary args)
         (Jira.arg_description args) w) = Some r /\
    ok r = true /\ resp_json r = Some body.
Proof.
  rewrite jira_main_run. cbv zeta. unfold Jira.outcome. split.
  - destruct (PyStr.truthy (Jira.arg_jira_url args)); [|discriminate].
    destruct (PyStr.truthy (Jira.arg_jira_user args)); [|discriminate].
    destruct (PyStr.truthy (Jira.arg_jira_token args)); [|discriminate].
    cbn [negb orb].
    destruct (Jira.http_post w _) as [r|]; [|discriminate].
    destruct (ok r) eqn:Hok; [|discriminate].
    destruct (resp_json r) as [body|] eqn:Hbody; [|discriminate].
    intros _. do 3 (split; [reflexivity|]). exists r, body. auto.
  - intros (-> & -> & -> & r & body & -> & -> & ->). reflexivity.
Qed.

Lemma jira_run_succeeds_iff_witness :
  Jira.outcome (Jira.main (Jira.sample_args (Some "Plan A"))
                          (Jira.sample_world (Some Jira.created)))
  = inr tt.
Proof.
  apply (jira_run_succeeds_iff (Jira.sample_args (Some "Plan A"))
           (Jira.sample_world (Some Jira.created))).
  do 3 (split; [reflexivity|]).
  exists Jira.created, "{}". repeat split.
Defined.

Lemma jira_init_slashes (url slashes user token : string) :
  all_in "/" slashes = true ->
  Jira.__init__ (url ++ slashes) user token = Jira.__init__ url user token.
Proof.
  intros H. unfold Jira.__init__.
  rewrite (rstrip_app_all_in "/" url slashes H). reflexivity.
Qed.

(** X22: the one request of the test-plan script goes to the Jira URL
    without its trailing slashes, followed by "/rest/api/3/issue", and
    carries as Authorization header "Basic " and the Base64 text that
    decodes to "user:token". *)
Theorem jira_request_of_main (url slashes user token project : string)
    (summary descr : option string) (w : Jira.World) :
  PyStr.truthy (Some url) = true -> PyStr.truthy (Some user) = true ->
  PyStr.truthy (Some token) = true ->
  all_in "/" slashes = true -> ends_in "/" url = false ->
  exists req prints encoded,
    Jira.trace
      (Jira.main {| Jira.arg_jira_url := Some (url ++ slashes);
                    Jira.arg_jira_user := Some user;
                    Jira.arg_jira_token := Some token;
                    Jira.arg_project := project;
                    Jira.arg_summary := summary;
                    Jira.arg_description := descr |} w)
    = Jira.EvPost req :: prints /\
    (forall ev, In ev prints -> exists out, ev = Jira.EvPrint out) /\
    Jira.req_url req = url ++ "/rest/api/3/issue" /\
    Jira.req_headers req = [("Authorization", "Basic " ++ encoded);
                            ("Content-Type", "application/json")] /\
    Jira.b64decode encoded = Some (user ++ ":" ++ token).
Proof.
  intros Hurl Huser Htoken Hsl Hend.
  assert (Hurl' : PyStr.truthy (Some (url ++ slashes)) = true)
    by (destruct url; [discriminate Hurl | reflexivity]).
  rewrite jira_main_run.
  cbn [Jira.arg_jira_url Jira.arg_jira_user Jira.arg_jira_token
       Jira.arg_project Jira.arg_summary Jira.arg_description get].
  rewrite Hurl', Huser, Htoken. cbn [negb orb]. cbv zeta.
  rewrite (jira_init_slashes url slashes user token Hsl).
  exists (Jira.plan_request (Jira.__init__ url user token) project
            summary descr w).
  assert (Hreq :
    Jira.req_url (Jira.plan_request (Jira.__init__ url user token) project
                    summary descr w) = url ++ "/rest/api/3/issue").
  { cbn [Jira.plan_request Jira.req_url Jira.__init__ Jira.jira_url].
    rewrite (rstrip_no_end "/" url Hend). reflexivity. }
  destruct (Jira.http_post w _) as [r|].
  - destruct (ok r).
    + destruct (resp_json r) as [body|].
      * eexists. exists (Jira.b64encode (user ++ ":" ++ token)).
        split; [reflexivity|]. split.
        { intros ev [<- | [<- | []]]; eauto. }
        split; [exact Hreq|]. split; [reflexivity|].
        apply b64decode_b64encode.
      * exists [], (Jira.b64encode (user ++ ":" ++ token)).
        split; [reflexivity|]. split; [intros ev []|].
        split; [exact Hreq|]. split; [reflexivity|].
        apply b64decode_b64encode.
    + eexists. exists (Jira.b64encode (user ++ ":" ++ token)).
      split; [reflexivity|]. split.
      { intros ev [<- | [<- | []]]; eauto. }
      split; [exact Hreq|]. split; [reflexivity|].
      apply b64decode_b64encode.
  - exists [], (Jira.b64encode (user ++ ":" ++ token)).
    split; [reflexivity|]. split; [intros ev []|].
    split; [exact Hreq|]. split; [reflexivity|].
    apply b64decode_b64encode.
Qed.

Lemma jira_request_of_main_witness :
  exists req prints encoded,
    Jira.trace
      (Jira.main {| Jira.arg_jira_url :=
                      Some ("https://example.atlassian.net" ++ "/");
                    Jira.arg_jira_user := Some "me@example.com";
                    Jira.arg_jira_token := Some "s3cret";
                    Jira.arg_project := "XSP";
                    Jira.arg_summary := None;
                    Jira.arg_description := None |}
                 (Jira.sample_world (Some Jira.created)))
    = Jira.EvPost req :: prints /\
    (forall ev, In ev prints -> exists out, ev = Jira.EvPrint out) /\
    Jira.req_url req = "https://example.atlassian.net" ++ "/rest/api/3/issue" /\
    Jira.req_headers req = [("Authorization", "Basic " ++ encoded);
                            ("Content-Type", "application/json")] /\
    Jira.b64decode encoded = Some ("me@example.com" ++ ":" ++ "s3cret").
Proof.
  apply (jira_request_of_main "https://example.atlassian.net" "/"
           "me@example.com" "s3cret" "XSP" None None
           (Jira.sample_world (Some Jira.created)));
    reflexivity.
Defined.
